(** * Verification of the CSV ingestion core of R-Lake ([ingest/processors.py])

    Shallow embedding of [CSVProcessor] and [DataValidator].  Python
    exceptions are modelled by the [result] type; the Django ORM by an
    explicit database state threaded through [process_csv]; the
    [@transaction.atomic] decorator by restoring the state seen at entry
    when an exception leaves the decorated function. *)

From Stdlib Require Import String Ascii List ZArith QArith Qminmax Bool Permutation Lia.
Import ListNotations.

Close Scope Q_scope.
Local Open Scope string_scope.

(** Strict order on rationals, as a boolean. *)
Definition Qltb (a b : Q) : bool := negb (Qle_bool b a).

(** ** Python exceptions and the error monad *)

Inductive exn : Type :=
| TypeError (msg : string)
| ValueError (msg : string)
| ValidationError (msg : string)
| ParserError (msg : string)
| OSError (msg : string)
| KeyError (msg : string)
| ZeroDivisionError (msg : string)
| OverflowError (msg : string)
| ReError (msg : string)
| IntegrityError (msg : string).

(** Text of [str(e)]. *)
Definition exn_msg (e : exn) : string :=
  match e with
  | TypeError m | ValueError m | ValidationError m | ParserError m | OSError m
  | KeyError m | ZeroDivisionError m | OverflowError m | ReError m
  | IntegrityError m => m
  end.

Inductive result (A : Type) : Type :=
| Ok (a : A)
| Err (e : exn).
Arguments Ok {A} a.
Arguments Err {A} e.

Definition bind {A B} (m : result A) (k : A -> result B) : result B :=
  match m with
  | Ok a => k a
  | Err e => Err e
  end.

Notation "x <- m ;; k" := (bind m (fun x => k))
  (at level 61, m at next level, right associativity).

(** ** Python values as they appear in a row dictionary

    [PFloat] is a Python float (or a [numpy.float64], a subclass of it),
    given by its rational value; [PNpInt], [PNpUInt] and [PNpBool] are
    the [numpy.int64], [numpy.uint64] and [numpy.bool_] scalars that
    [DataFrame.iterrows] yields when every column shares that dtype. *)

Inductive pyval : Type :=
| PNone
| PBool (b : bool)
| PInt (z : Z)
| PFloat (q : Q)
| PStr (s : string)
| PNpInt (z : Z)
| PNpUInt (z : Z)
| PNpBool (b : bool).

(** ** Decimal printing of integers ([str(int)]) *)

Fixpoint digits_rev (fuel : nat) (n : N) : list ascii :=
  match fuel with
  | O => []
  | S f =>
      let d := ascii_of_N (48 + N.modulo n 10) in
      if (n <? 10)%N then [d] else d :: digits_rev f (N.div n 10)
  end.

Definition string_of_N (n : N) : string :=
  string_of_list_ascii (rev (digits_rev (S (N.size_nat n)) n)).

Definition string_of_Z (z : Z) : string :=
  match z with
  | Zneg p => "-" ++ string_of_N (Npos p)
  | _ => string_of_N (Z.to_N z)
  end.

(** ** [json.dumps(data, sort_keys=True, ensure_ascii=False)] *)

Section Json.

(** [float.__repr__], the shortest round-tripping decimal form. *)
Variable float_repr : Q -> string.

Definition quote : string := String (ascii_of_N 34) EmptyString.
Definition backslash : string := String (ascii_of_N 92) EmptyString.

Definition hex_digit (n : N) : ascii :=
  if (n <? 10)%N then ascii_of_N (48 + n) else ascii_of_N (87 + n).

(** Escaping of one character by the JSON encoder with
    [ensure_ascii=False]: quote, backslash and control characters. *)
Definition json_escape_char (c : ascii) : string :=
  let n := N_of_ascii c in
  if (n =? 34)%N then backslash ++ quote
  else if (n =? 92)%N then backslash ++ backslash
  else if (n =? 10)%N then "\n"
  else if (n =? 13)%N then "\r"
  else if (n =? 9)%N then "\t"
  else if (n =? 8)%N then "\b"
  else if (n =? 12)%N then "\f"
  else if (n <? 32)%N then
    "\u00" ++ String (hex_digit (N.div n 16)) (String (hex_digit (N.modulo n 16)) EmptyString)
  else String c EmptyString.

Fixpoint json_escape (s : string) : string :=
  match s with
  | EmptyString => EmptyString
  | String c s' => json_escape_char c ++ json_escape s'
  end.

Definition json_string (s : string) : string :=
  quote ++ json_escape s ++ quote.

(** Encoding of one value; numpy scalars are not JSON serializable. *)
Definition json_value (v : pyval) : result string :=
  match v with
  | PNone => Ok "null"
  | PBool true => Ok "true"
  | PBool false => Ok "false"
  | PInt z => Ok (string_of_Z z)
  | PFloat q => Ok (float_repr q)
  | PStr s => Ok (json_string s)
  | PNpInt _ => Err (TypeError "Object of type int64 is not JSON serializable")
  | PNpUInt _ => Err (TypeError "Object of type uint64 is not JSON serializable")
  | PNpBool _ => Err (TypeError "Object of type bool is not JSON serializable")
  end.

(** A Python dict with string keys, in insertion order. *)
Definition pydict := list (string * pyval).

Fixpoint dict_get (k : string) (d : pydict) : option pyval :=
  match d with
  | [] => None
  | (k', v) :: d' => if String.eqb k k' then Some v else dict_get k d'
  end.

(** [sorted(dct.items())]: keys are distinct, so this is a sort by key. *)
Fixpoint insert_item (kv : string * pyval) (d : pydict) : pydict :=
  match d with
  | [] => [kv]
  | kv' :: d' =>
      if String.leb (fst kv) (fst kv') then kv :: kv' :: d'
      else kv' :: insert_item kv d'
  end.

Fixpoint sort_items (d : pydict) : pydict :=
  match d with
  | [] => []
  | kv :: d' => insert_item kv (sort_items d')
  end.

Fixpoint json_items (first : bool) (d : pydict) : result string :=
  match d with
  | [] => Ok EmptyString
  | (k, v) :: d' =>
      sv <- json_value v ;;
      rest <- json_items false d' ;;
      Ok ((if first then EmptyString else ", ") ++ json_string k ++ ": " ++ sv ++ rest)
  end.

Definition json_dumps_sorted (d : pydict) : result string :=
  body <- json_items true (sort_items d) ;;
  Ok ("{" ++ body ++ "}").

(** [hashlib.sha256(...).hexdigest()] *)
Variable sha256_hex : string -> string.

(** [CSVProcessor.generate_data_hash] *)
Definition generate_data_hash (data : pydict) : result string :=
  data_str <- json_dumps_sorted data ;;
  Ok (sha256_hex data_str).

End Json.

(** ** Cell parsers of the CSV reader

    [pandas.read_csv] turns NA markers (empty field, [NA], [null], ...)
    into missing cells, represented here by [None].  The number syntax of
    its C parser is modelled: surrounding white space, an optional sign,
    decimal digits, an optional fraction and an optional exponent.  Values
    are exact rationals, where a double would round them (and overflow
    beyond about [1.8e308]); the literals [inf] and [Infinity], which the
    parser also reads as floats, are not modelled. *)

Definition is_digit (c : ascii) : bool :=
  let n := N_of_ascii c in (48 <=? n)%N && (n <=? 57)%N.

(** [isspace_ascii]: space, tab, LF, VT, FF, CR. *)
Definition is_space (c : ascii) : bool :=
  let n := N_of_ascii c in (n =? 32)%N || ((9 <=? n)%N && (n <=? 13)%N).

Fixpoint skip_spaces (l : list ascii) : list ascii :=
  match l with
  | c :: l' => if is_space c then skip_spaces l' else l
  | [] => []
  end.

Fixpoint parse_digits (l : list ascii) (acc : Z) (cnt : nat) : Z * nat * list ascii :=
  match l with
  | c :: l' =>
      if is_digit c
      then parse_digits l' (acc * 10 + (Z.of_N (N_of_ascii c) - 48)) (S cnt)
      else (acc, cnt, l)
  | [] => (acc, cnt, [])
  end.

Definition parse_sign (l : list ascii) : bool * list ascii :=
  match l with
  | c :: l' =>
      if (N_of_ascii c =? 45)%N then (true, l')
      else if (N_of_ascii c =? 43)%N then (false, l')
      else (false, l)
  | [] => (false, [])
  end.

(** An optional exponent [e] or [E], sign and digits: [Some (None, l)]
    when there is none, [None] when the digits are missing. *)
Definition parse_exponent (l : list ascii) : option (option Z * list ascii) :=
  match l with
  | c :: l' =>
      if (N_of_ascii c =? 101)%N || (N_of_ascii c =? 69)%N then
        let '(neg, l1) := parse_sign l' in
        let '(x, nx, l2) := parse_digits l1 0 0 in
        if Nat.eqb nx 0 then None
        else Some (Some (if neg then Z.opp x else x), l2)
      else Some (None, l)
  | [] => Some (None, [])
  end.

(** The value of a numeric cell, and whether it is written as a float
    (with a decimal point or an exponent) rather than as an integer. *)
Definition parse_number (s : string) : option (Q * bool) :=
  let '(neg, l1) := parse_sign (skip_spaces (list_ascii_of_string s)) in
  let sgn (z : Z) := if neg then Z.opp z else z in
  let '(ip, ni, l2) := parse_digits l1 0 0 in
  let '(fp, nf, dot, l3) :=
    match l2 with
    | c :: l2' =>
        if (N_of_ascii c =? 46)%N then
          let '(fp, nf, l3) := parse_digits l2' 0 0 in (fp, nf, true, l3)
        else (0%Z, O, false, l2)
    | [] => (0%Z, O, false, [])
    end in
  if Nat.eqb (ni + nf) 0 then None else
  match parse_exponent l3 with
  | None => None
  | Some (ex, l4) =>
      match skip_spaces l4 with
      | _ :: _ => None
      | [] =>
          let mant := sgn (ip * 10 ^ Z.of_nat nf + fp)%Z in
          let e := (match ex with Some x => x | None => 0 end - Z.of_nat nf)%Z in
          let q := if (0 <=? e)%Z then inject_Z (mant * 10 ^ e)
                   else Qmake mant (Z.to_pos (10 ^ (- e))) in
          Some (Qred q, dot || match ex with Some _ => true | None => false end)
      end
  end.

Definition is_int_text (s : string) : bool :=
  match parse_number s with Some (_, false) => true | _ => false end.

Definition is_number_text (s : string) : bool :=
  match parse_number s with Some _ => true | None => false end.

(** [true_values] / [false_values] recognised by [read_csv]. *)
Definition bool_literal (s : string) : option bool :=
  if String.eqb s "True" || String.eqb s "TRUE" || String.eqb s "true" then Some true
  else if String.eqb s "False" || String.eqb s "FALSE" || String.eqb s "false" then Some false
  else None.

(** A date parser for ISO dates [YYYY-MM-DD] with its [isoformat()],
    used as the [pd.to_datetime] of the concrete runs below. *)
Definition datetime_iso (s : string) : option string :=
  match list_ascii_of_string s with
  | [y1; y2; y3; y4; d1; m1; m2; d2; a1; a2] =>
      let two x y := ((Z.of_N (N_of_ascii x) - 48) * 10 + (Z.of_N (N_of_ascii y) - 48))%Z in
      if forallb is_digit [y1; y2; y3; y4; m1; m2; a1; a2]
         && (N_of_ascii d1 =? 45)%N && (N_of_ascii d2 =? 45)%N
         && (1 <=? two m1 m2)%Z && (two m1 m2 <=? 12)%Z
         && (1 <=? two a1 a2)%Z && (two a1 a2 <=? 31)%Z
      then Some (s ++ "T00:00:00")
      else None
  | _ => None
  end.

Definition lower_char (c : ascii) : ascii :=
  let n := N_of_ascii c in
  if (65 <=? n)%N && (n <=? 90)%N then ascii_of_N (n + 32) else c.

Fixpoint str_lower (s : string) : string :=
  match s with
  | EmptyString => EmptyString
  | String c s' => String (lower_char c) (str_lower s')
  end.

Fixpoint str_contains_dot (s : string) : bool :=
  match s with
  | EmptyString => false
  | String c s' => (N_of_ascii c =? 46)%N || str_contains_dot s'
  end.

(** ** DataFrame columns *)

Inductive dtype : Type := DInt64 | DUInt64 | DFloat64 | DBool | DObject.

Definition dtype_name (d : dtype) : string :=
  match d with
  | DInt64 => "int64" | DUInt64 => "uint64" | DFloat64 => "float64"
  | DBool => "bool" | DObject => "object"
  end.

(** An element of a column; [ENaN] is a missing value. *)
Inductive elem : Type :=
| ENaN
| EInt (z : Z)
| EFloat (q : Q)
| EBool (b : bool)
| EStr (s : string).

Fixpoint somes {A} (l : list (option A)) : list A :=
  match l with
  | [] => []
  | Some x :: l' => x :: somes l'
  | None :: l' => somes l'
  end.

Definition has_none {A} (l : list (option A)) : bool :=
  existsb (fun o => match o with None => true | Some _ => false end) l.

Definition is_bool_literal (s : string) : bool :=
  match bool_literal s with Some _ => true | None => false end.

Definition number_value (s : string) : Q :=
  match parse_number s with Some (q, _) => q | None => 0%Q end.

(** The value of an integer cell. *)
Definition int_value (s : string) : Z := Qnum (number_value s).

Definition in_int64 (z : Z) : bool := (- 2 ^ 63 <=? z)%Z && (z <? 2 ^ 63)%Z.

Definition in_uint64 (z : Z) : bool := (0 <=? z)%Z && (z <? 2 ^ 64)%Z.

(** dtype chosen by the C parser of [read_csv] for one column of cells:
    integers go to int64 (float64 when a cell is missing), else to uint64
    when they all fit it and no cell is missing, else the column is kept
    as text; then float64, bool (object when a cell is missing), object. *)
Definition read_csv_dtype (cells : list (option string)) : dtype :=
  let nn := somes cells in
  match nn with
  | [] => DFloat64
  | _ =>
      if forallb is_int_text nn then
        if forallb (fun s => in_int64 (int_value s)) nn
        then (if has_none cells then DFloat64 else DInt64)
        else if negb (has_none cells) && forallb (fun s => in_uint64 (int_value s)) nn
        then DUInt64
        else DObject
      else if forallb is_number_text nn then DFloat64
      else if forallb is_bool_literal nn
      then (if has_none cells then DObject else DBool)
      else DObject
  end.

(** Element of a parsed cell; [boolcol] tells that all present cells of
    the column are boolean literals (a bool column, or an object column
    of booleans and NaN when some cell is missing). *)
Definition read_csv_elem (d : dtype) (boolcol : bool) (cell : option string) : elem :=
  match cell with
  | None => ENaN
  | Some s =>
      match d with
      | DInt64 | DUInt64 => EInt (int_value s)
      | DFloat64 => EFloat (Qred (number_value s))
      | DBool | DObject =>
          match bool_literal s with
          | Some b => if boolcol then EBool b else EStr s
          | None => EStr s
          end
      end
  end.

(** A column of the DataFrame: name, dtype and elements. *)
Record column : Type := mkColumn {
  col_name : string;
  col_dtype : dtype;
  col_elems : list elem
}.

Definition read_csv_column (name : string) (cells : list (option string)) : column :=
  let d := read_csv_dtype cells in
  mkColumn name d (map (read_csv_elem d (forallb is_bool_literal (somes cells))) cells).

(** ** [CSVProcessor.infer_column_types] *)

Inductive coltype : Type := INTEGER | FLOAT | STRING | DATETIME | BOOLEAN.

(** [series.dropna()] *)
Definition dropna (l : list elem) : list elem :=
  filter (fun e => match e with ENaN => false | _ => true end) l.

(** The pandas conversions whose parsers are not modelled:
    - [pd_numeric_str s]: [pd.to_numeric] accepts the string [s] (it
      raises [ValueError] on a string that is not a number or is an
      integer out of the int64/uint64 range); it converts the elements
      of an object Series one by one, so a Series of strings is accepted
      when each of them is;
    - [pd_to_datetime_series l]: [pd.to_datetime] returns on the Series of
      the elements [l]; when it does not, it raises [ValueError] (its
      parsing errors derive from it) or [TypeError];
    - [pd_to_datetime_iso v]: [pd.to_datetime(v).isoformat()], [None]
      when that raises. *)
Record pandas_ops : Type := mkPandasOps {
  pd_numeric_str : string -> bool;
  pd_to_datetime_series : list elem -> bool;
  pd_to_datetime_iso : pyval -> option string
}.

Section Ingest.

Variable float_repr : Q -> string.
Variable sha256_hex : string -> string.
Variable pd : pandas_ops.

(** [str(val)] of an element. *)
Definition elem_str (e : elem) : string :=
  match e with
  | ENaN => "nan"
  | EInt z => string_of_Z z
  | EFloat q => float_repr q
  | EBool true => "True"
  | EBool false => "False"
  | EStr s => s
  end.

(** [pd.to_numeric] accepts the element (numbers and booleans are
    numeric). *)
Definition to_numeric_ok (e : elem) : bool :=
  match e with
  | EStr s => pd_numeric_str pd s
  | _ => true
  end.

Definition bool_words : list string := ["true"; "false"; "1"; "0"; "yes"; "no"].

Definition in_bool_words (s : string) : bool :=
  existsb (String.eqb s) bool_words.

Definition infer_column_type (c : column) : coltype :=
  let non_null_series := dropna (col_elems c) in
  match non_null_series with
  | [] => STRING
  | _ =>
      match col_dtype c with
      | DInt64 | DUInt64 => INTEGER
      | DFloat64 => FLOAT
      | DBool | DObject =>
          if forallb to_numeric_ok non_null_series then
            (if existsb (fun v => str_contains_dot (elem_str v)) non_null_series
             then FLOAT else INTEGER)
          else if pd_to_datetime_series pd non_null_series then DATETIME
          else if forallb (fun v => in_bool_words (str_lower (elem_str v))) non_null_series
          then BOOLEAN
          else STRING
      end
  end.

(** The result dict, in column order. *)
Definition infer_column_types (df : list column) : list (string * coltype) :=
  map (fun c => (col_name c, infer_column_type c)) df.

End Ingest.

(** The priority chain of the spec, read on the raw text cells of a
    column; [parses_datetime] is what "parses as a datetime" means. *)
Definition spec_infer_type (parses_datetime : string -> bool)
    (cells : list (option string)) : coltype :=
  let nn := somes cells in
  match nn with
  | [] => STRING
  | _ =>
      if forallb is_int_text nn then INTEGER
      else if forallb is_number_text nn then FLOAT
      else if forallb parses_datetime nn then DATETIME
      else if forallb (fun s => in_bool_words (str_lower s)) nn then BOOLEAN
      else STRING
  end.

(** A float printer for the concrete runs below; it renders integral
    values as Python does ([1000.0]). *)
Definition demo_float_repr (q : Q) : string :=
  let q' := Qred q in
  if (Zpos (Qden q') =? 1)%Z then string_of_Z (Qnum q') ++ ".0"
  else string_of_Z (Qnum q') ++ "/" ++ string_of_Z (Zpos (Qden q')).

(** The pandas conversions of the concrete runs below: [is_number_text]
    for [pd.to_numeric] and ISO dates for [pd.to_datetime]. *)
Definition demo_pandas : pandas_ops :=
  mkPandasOps is_number_text
    (forallb (fun e => match e with
                       | EStr s => match datetime_iso s with Some _ => true | None => false end
                       | _ => false
                       end))
    (fun v => match v with PStr s => datetime_iso s | _ => None end).

(** ** The Django models touched by [process_csv] *)

Record raw_file_row : Type := mkRawFile {
  rf_processed : bool;
  rf_encoding : string;
  rf_delimiter : string;
  rf_processing_error : string
}.

Record schema_row : Type := mkSchemaRow {
  sc_column_name : string;
  sc_column_type : coltype;
  sc_column_order : nat;
  sc_min_value : option Q;
  sc_max_value : option Q;
  sc_unique_count : nat
}.

(** A stored [DataRecord] row; [row_number] is an [IntegerField] and
    [(dataset, row_number)] is [unique_together]. *)
Record data_record : Type := mkDataRecord {
  rec_row_number : Z;
  rec_data : pydict;
  rec_data_hash : string
}.

Record column_quality : Type := mkColumnQuality {
  cq_column : string;
  cq_completeness_percentage : Q;
  cq_null_count : nat;
  cq_unique_values : nat;
  cq_data_type : string
}.

Record quality_report : Type := mkQualityReport {
  qr_total_records : Z;
  qr_valid_records : Z;
  qr_invalid_records : Z;
  qr_duplicate_records : Z;
  qr_column_quality : list column_quality
}.

(** Database rows of the raw file and of the target dataset. *)
Record db : Type := mkDb {
  db_raw_file : raw_file_row;
  db_total_rows : nat;
  db_schema : list schema_row;
  db_records : list data_record;
  db_reports : list quality_report
}.

(** Program state: the database and the in-memory [raw_file] instance,
    whose [save()] writes all its fields. *)
Record state : Type := mkState {
  st_db : db;
  st_raw_file : raw_file_row
}.

(** [dataset.schema_fields.all().delete()] *)
Definition delete_schema (s : state) : state :=
  let d := st_db s in
  mkState (mkDb (db_raw_file d) (db_total_rows d) [] (db_records d) (db_reports d)) (st_raw_file s).

(** [DataSchema.objects.create(...)] *)
Definition append_schema (r : schema_row) (s : state) : state :=
  let d := st_db s in
  mkState (mkDb (db_raw_file d) (db_total_rows d) (db_schema d ++ [r]) (db_records d) (db_reports d))
          (st_raw_file s).

(** [dataset.records.all().delete()] *)
Definition delete_records (s : state) : state :=
  let d := st_db s in
  mkState (mkDb (db_raw_file d) (db_total_rows d) (db_schema d) [] (db_reports d)) (st_raw_file s).

(** Insertion of rows by [bulk_create]. *)
Definition append_records (l : list data_record) (s : state) : state :=
  let d := st_db s in
  mkState (mkDb (db_raw_file d) (db_total_rows d) (db_schema d) (db_records d ++ l) (db_reports d))
          (st_raw_file s).

Definition set_total_rows (n : nat) (s : state) : state :=
  let d := st_db s in
  mkState (mkDb (db_raw_file d) n (db_schema d) (db_records d) (db_reports d)) (st_raw_file s).

Definition add_report (r : quality_report) (s : state) : state :=
  let d := st_db s in
  mkState (mkDb (db_raw_file d) (db_total_rows d) (db_schema d) (db_records d) (r :: db_reports d))
          (st_raw_file s).

Definition set_raw_file_obj (rf : raw_file_row) (s : state) : state :=
  mkState (st_db s) rf.

(** [raw_file.save()] *)
Definition save_raw_file (s : state) : state :=
  let d := st_db s in
  mkState (mkDb (st_raw_file s) (db_total_rows d) (db_schema d) (db_records d) (db_reports d))
          (st_raw_file s).

(** ** State and exception monad *)

Definition M (A : Type) : Type := state -> result A * state.

Definition ret {A} (a : A) : M A := fun s => (Ok a, s).

Definition mbind {A B} (m : M A) (k : A -> M B) : M B :=
  fun s => match m s with
           | (Ok a, s') => k a s'
           | (Err e, s') => (Err e, s')
           end.

Definition raise {A} (e : exn) : M A := fun s => (Err e, s).

Definition lift {A} (r : result A) : M A := fun s => (r, s).

Definition modify (f : state -> state) : M unit := fun s => (Ok tt, f s).

Definition get_raw_file : M raw_file_row := fun s => (Ok (st_raw_file s), s).

(** [try: m except Exception as e: h(e)] *)
Definition try_except {A} (m : M A) (h : exn -> M A) : M A :=
  fun s => match m s with
           | (Err e, s') => h e s'
           | r => r
           end.

(** [@transaction.atomic]: an exception leaving the block rolls the
    database back to its state at entry; Python objects keep their values. *)
Definition atomic {A} (m : M A) : M A :=
  fun s => match m s with
           | (Err e, s') => (Err e, mkState (st_db s) (st_raw_file s'))
           | r => r
           end.

Notation "x <-- m ;; k" := (mbind m (fun x => k))
  (at level 61, m at next level, right associativity).
Notation "m ;;; k" := (mbind m (fun _ => k))
  (at level 61, right associativity).

(** [str(e)]; a Django [ValidationError] prints as a list of messages. *)
Definition exn_str (e : exn) : string :=
  match e with
  | ValidationError m => "['" ++ m ++ "']"
  | _ => exn_msg e
  end.

(** ** Reading the CSV into a DataFrame *)

(** Output of the CSV tokenizer: header, index columns and rows of
    cells, [None] for an NA marker or a missing trailing field.  When the
    first data row has [k] more fields than the header, [read_csv] uses
    its first [k] fields as the index (an implicit index): [tb_index]
    holds these [k] columns, each with one cell per data row, and the rows
    hold the remaining fields.  It is empty for the default [RangeIndex]. *)
Record table : Type := mkTable {
  tb_header : list string;
  tb_index : list (list (option string));
  tb_rows : list (list (option string))
}.

Definition frame_of_table (t : table) : list column :=
  map (fun '(i, name) => read_csv_column name (map (fun r => nth i r None) (tb_rows t)))
      (combine (seq 0 (length (tb_header t))) (tb_header t)).

(** The index levels, typed by the parser as the data columns are. *)
Definition index_of_table (t : table) : list column :=
  map (read_csv_column EmptyString) (tb_index t).

(** [len(df)] *)
Definition df_len (t : table) : nat := length (tb_rows t).

(** [df.empty] *)
Definition df_empty (t : table) : bool :=
  match tb_header t, tb_rows t with
  | [], _ | _, [] => true
  | _, _ => false
  end.

Definition dtype_eqb (a b : dtype) : bool :=
  match a, b with
  | DInt64, DInt64 | DUInt64, DUInt64 | DFloat64, DFloat64 | DBool, DBool
  | DObject, DObject => true
  | _, _ => false
  end.

(** dtype of the Series yielded by [df.iterrows()]: the common dtype
    (int64 and uint64 together give float64). *)
Definition row_dtype (df : list column) : dtype :=
  if forallb (fun c => dtype_eqb (col_dtype c) DInt64) df then DInt64
  else if forallb (fun c => dtype_eqb (col_dtype c) DUInt64) df then DUInt64
  else if forallb (fun c => dtype_eqb (col_dtype c) DBool) df then DBool
  else if forallb (fun c => dtype_eqb (col_dtype c) DInt64 || dtype_eqb (col_dtype c) DUInt64
                            || dtype_eqb (col_dtype c) DFloat64) df
  then DFloat64
  else DObject.

(** [row[col]]; [None] when [pd.isna(value)].  A float64 row holds the
    integers exactly (a double does so up to [2 ** 53]). *)
Definition row_value (rk : dtype) (e : elem) : option pyval :=
  match e with
  | ENaN => None
  | EInt z =>
      Some (match rk with
            | DInt64 => PNpInt z
            | DUInt64 => PNpUInt z
            | DFloat64 => PFloat (inject_Z z)
            | _ => PInt z
            end)
  | EFloat q => Some (PFloat q)
  | EBool b => Some (match rk with DBool => PNpBool b | _ => PBool b end)
  | EStr s => Some (PStr s)
  end.

Definition elem_eqb (a b : elem) : bool :=
  match a, b with
  | ENaN, ENaN => true
  | EInt x, EInt y => Z.eqb x y
  | EFloat x, EFloat y => Qeq_bool x y
  | EBool x, EBool y => Bool.eqb x y
  | EStr x, EStr y => String.eqb x y
  | _, _ => false
  end.

(** [len(series.unique())] *)
Fixpoint count_unique (l : list elem) : nat :=
  match l with
  | [] => 0
  | e :: l' => if existsb (elem_eqb e) l' then count_unique l' else S (count_unique l')
  end.

(** [pd.to_numeric(..., errors='coerce')] on one element. *)
Definition coerce_numeric (e : elem) : option Q :=
  match e with
  | ENaN => None
  | EInt z => Some (inject_Z z)
  | EFloat q => Some q
  | EBool b => Some (if b then 1 else 0)%Q
  | EStr s => match parse_number s with Some (q, _) => Some q | None => None end
  end.

Fixpoint list_min (q : Q) (l : list Q) : Q :=
  match l with [] => q | x :: l' => list_min (Qmin q x) l' end.

Fixpoint list_max (q : Q) (l : list Q) : Q :=
  match l with [] => q | x :: l' => list_max (Qmax q x) l' end.

Record col_stats : Type := mkStats {
  stat_min : option Q;
  stat_max : option Q;
  stat_unique : nat;
  stat_null : nat
}.

(** [CSVProcessor.calculate_statistics]; mean and std are computed by
    the source but not stored by [process_csv]. *)
Definition calculate_statistics (c : column) (ty : coltype) : col_stats :=
  let series := dropna (col_elems c) in
  let numeric :=
    match ty with
    | INTEGER | FLOAT => somes (map coerce_numeric series)
    | _ => []
    end in
  let '(mn, mx) :=
    match numeric with
    | [] => (None, None)
    | x :: l => (Some (list_min x l), Some (list_max x l))
    end in
  mkStats mn mx (count_unique series) (length (col_elems c) - length series).

(** ** Row labels and [DataRecord] instances *)

(** The label [idx] that [df.iterrows()] yields for a row: its position
    under the default index, the element of the index column (a Python
    scalar) under a one-column index, a tuple under a MultiIndex. *)
Inductive row_label : Type :=
| RangeLabel (i : nat)
| IndexLabel (e : elem)
| TupleLabel (es : list elem).

Definition row_label_at (ix : list column) (i : nat) : row_label :=
  match ix with
  | [] => RangeLabel i
  | [c] => IndexLabel (nth i (col_elems c) ENaN)
  | _ => TupleLabel (map (fun c => nth i (col_elems c) ENaN) ix)
  end.

(** [idx + 1]; its value is an int, a float or NaN. *)
Definition label_add1 (l : row_label) : result elem :=
  match l with
  | RangeLabel i => Ok (EInt (Z.of_nat i + 1))
  | IndexLabel ENaN => Ok ENaN
  | IndexLabel (EInt z) => Ok (EInt (z + 1))
  | IndexLabel (EFloat q) => Ok (EFloat (q + 1)%Q)
  | IndexLabel (EBool b) => Ok (EInt (if b then 2 else 1))
  | IndexLabel (EStr _) =>
      Err (TypeError ("can only concatenate str (not " ++ quote ++ "int" ++ quote ++ ") to str"))
  | TupleLabel _ =>
      Err (TypeError ("can only concatenate tuple (not " ++ quote ++ "int" ++ quote ++ ") to tuple"))
  end.

(** [IntegerField.get_prep_value]: [int(value)], truncating a float. *)
Definition row_number_int (v : elem) : result Z :=
  match v with
  | EInt z => Ok z
  | EFloat q => Ok (Z.quot (Qnum q) (Zpos (Qden q)))
  | EBool b => Ok (if b then 1 else 0)%Z
  | ENaN => Err (ValueError "Field 'row_number' expected a number but got nan.")
  | EStr s => Err (ValueError ("Field 'row_number' expected a number but got '" ++ s ++ "'."))
  end.

(** A [DataRecord(...)] instance of the loop, not yet saved: its
    [row_number] holds the Python value [idx + 1]. *)
Record staged_record : Type := mkStaged {
  stg_row_number : elem;
  stg_data : pydict;
  stg_data_hash : string
}.

(** The field values of the rows [bulk_create] inserts. *)
Fixpoint prep_records (l : list staged_record) : result (list data_record) :=
  match l with
  | [] => Ok []
  | r :: l' =>
      n <- row_number_int (stg_row_number r) ;;
      rest <- prep_records l' ;;
      Ok (mkDataRecord n (stg_data r) (stg_data_hash r) :: rest)
  end.

Fixpoint nodupb_Z (l : list Z) : bool :=
  match l with
  | [] => true
  | z :: l' => negb (existsb (Z.eqb z) l') && nodupb_Z l'
  end.

(** [DataRecord.objects.bulk_create(records_to_create, batch_size=1000)]:
    the field values are prepared, then the rows inserted; a repeated
    [row_number] in the dataset violates [unique_together] (the message
    is SQLite's). *)
Definition bulk_create (records : list staged_record) : M unit :=
  fun s =>
    match prep_records records with
    | Err e => (Err e, s)
    | Ok rows =>
        if nodupb_Z (map rec_row_number (db_records (st_db s) ++ rows))
        then (Ok tt, append_records rows s)
        else (Err (IntegrityError
                     "UNIQUE constraint failed: ingest_datarecord.dataset_id, ingest_datarecord.row_number"), s)
    end.

(** [DataSchema.objects.create(...)] for each row, in order. *)
Fixpoint create_schema_rows (l : list schema_row) : M unit :=
  match l with
  | [] => ret tt
  | r :: l' => modify (append_schema r) ;;; create_schema_rows l'
  end.

Section Processing.

Variable float_repr : Q -> string.
Variable sha256_hex : string -> string.
Variable pd : pandas_ops.

Fixpoint lookup_type (k : string) (l : list (string * coltype)) : result coltype :=
  match l with
  | [] => Err (KeyError k)
  | (k', t) :: l' => if String.eqb k k' then Ok t else lookup_type k l'
  end.

Definition py_str (v : pyval) : string :=
  match v with
  | PNone => "None"
  | PBool true | PNpBool true => "True"
  | PBool false | PNpBool false => "False"
  | PInt z | PNpInt z | PNpUInt z => string_of_Z z
  | PFloat q => float_repr q
  | PStr s => s
  end.

(** One cell of the row dict built in the [iterrows] loop. *)
Definition row_cell (column_types : list (string * coltype)) (rk : dtype)
    (c : column) (idx : nat) : result pyval :=
  match row_value rk (nth idx (col_elems c) ENaN) with
  | None => Ok PNone
  | Some v =>
      ty <- lookup_type (col_name c) column_types ;;
      match ty with
      | DATETIME =>
          match pd_to_datetime_iso pd v with
          | Some iso => Ok (PStr iso)
          | None => Ok (PStr (py_str v))
          end
      | _ => Ok v
      end
  end.

Fixpoint build_row (column_types : list (string * coltype)) (rk : dtype)
    (cols : list column) (idx : nat) : result pydict :=
  match cols with
  | [] => Ok []
  | c :: cols' =>
      v <- row_cell column_types rk c idx ;;
      rest <- build_row column_types rk cols' idx ;;
      Ok ((col_name c, v) :: rest)
  end.

(** Body of the [try] block for the row at position [i], whose label
    is given by the index levels [ix]. *)
Definition process_row (column_types : list (string * coltype)) (df : list column)
    (ix : list column) (i : nat) : result staged_record :=
  data <- build_row column_types (row_dtype df) df i ;;
  data_hash <- generate_data_hash float_repr sha256_hex data ;;
  row_number <- label_add1 (row_label_at ix i) ;;
  Ok (mkStaged row_number data data_hash).

(** Loop state: [records_to_create], [duplicate_count], [error_count].
    The handler evaluates [idx + 1] again, in its log message; when that
    raises, the exception leaves the loop. *)
Definition row_step (column_types : list (string * coltype)) (df : list column)
    (ix : list column) (acc : result (list staged_record * nat * nat)) (i : nat)
    : result (list staged_record * nat * nat) :=
  loop <- acc ;;
  let '(records_to_create, duplicate_count, error_count) := loop in
  match process_row column_types df ix i with
  | Ok record => Ok ((records_to_create ++ [record])%list, duplicate_count, error_count)
  | Err _ =>
      _ <- label_add1 (row_label_at ix i) ;;
      Ok (records_to_create, duplicate_count, error_count + 1)
  end.

Definition materialize_rows (column_types : list (string * coltype)) (df : list column)
    (ix : list column) (nrows : nat) : result (list staged_record * nat * nat) :=
  fold_left (row_step column_types df ix) (seq 0 nrows) (Ok ([], 0, 0)).

(** [DataSchema.objects.create(...)] for every inferred column. *)
Fixpoint schema_rows (df : list column) (column_types : list (string * coltype))
    (idx : nat) : list schema_row :=
  match column_types with
  | [] => []
  | (column, column_type) :: rest =>
      let c := match find (fun c => String.eqb (col_name c) column) df with
               | Some c => c
               | None => mkColumn column DObject []
               end in
      let stats := calculate_statistics c column_type in
      mkSchemaRow column column_type idx (stat_min stats) (stat_max stats) (stat_unique stats)
        :: schema_rows df rest (S idx)
  end.

Definition column_quality_of (c : column) : column_quality :=
  let n := length (col_elems c) in
  let null_count := length (col_elems c) - length (dropna (col_elems c)) in
  mkColumnQuality (col_name c)
    (Qmult (Qmake (Z.of_nat (n - null_count)) (Pos.of_nat n)) (inject_Z 100))
    null_count (count_unique (dropna (col_elems c))) (dtype_name (col_dtype c)).

(** [CSVProcessor.create_quality_report] *)
Definition create_quality_report (t : table) (df : list column)
    (error_count duplicate_count : nat) : M quality_report :=
  let total_records := Z.of_nat (df_len t) in
  let valid_records := (total_records - Z.of_nat error_count)%Z in
  let report := mkQualityReport total_records valid_records (Z.of_nat error_count)
                  (Z.of_nat duplicate_count) (map column_quality_of df) in
  modify (add_report report) ;;; ret report.

(** Result summary returned by [process_csv]. *)
Record summary : Type := mkSummary {
  sm_success : bool;
  sm_total_rows : nat;
  sm_processed_rows : nat;
  sm_error_rows : nat;
  sm_duplicate_rows : nat;
  sm_columns : list string;
  sm_quality_score : Q
}.

(** [valid_records / total_records * 100] *)
Definition quality_score (r : quality_report) : result Q :=
  if Z.eqb (qr_total_records r) 0 then Err (ZeroDivisionError "division by zero")
  else Ok (Qmult (Qmake (qr_valid_records r) (Z.to_pos (qr_total_records r))) (inject_Z 100)).

(** The outcome of the library calls at the top of the [try] block:
    [detect_encoding], [detect_delimiter] and the tokenizer of
    [pd.read_csv] (which raises on malformed input). *)
Record csv_source : Type := mkSource {
  src_encoding : string;
  src_delimiter : string;
  src_table : result table
}.

(** The [try] block of [CSVProcessor.process_csv]. *)
Definition process_csv_try (src : csv_source) : M summary :=
  t <-- lift (src_table src) ;;
  let df := frame_of_table t in
  if df_empty t then raise (ValidationError "CSV file contains no data")
  else
    let column_types := infer_column_types float_repr pd df in
    modify delete_schema ;;;
    create_schema_rows (schema_rows df column_types 0) ;;;
    modify delete_records ;;;
    loop <-- lift (materialize_rows column_types df (index_of_table t) (df_len t)) ;;
    let '(records_to_create, duplicate_count, error_count) := loop in
    bulk_create records_to_create ;;;
    modify (set_total_rows (length records_to_create)) ;;;
    rf <-- get_raw_file ;;
    modify (set_raw_file_obj
              (mkRawFile true (src_encoding src) (src_delimiter src) (rf_processing_error rf))) ;;;
    modify save_raw_file ;;;
    report <-- create_quality_report t df error_count duplicate_count ;;
    score <-- lift (quality_score report) ;;
    ret (mkSummary true (df_len t) (length records_to_create) error_count duplicate_count
           (map fst column_types) score).

(** The [except Exception as e] handler: record [str(e)] on the raw file,
    save it and raise a [ValidationError]. *)
Definition process_csv_except (e : exn) : M summary :=
  rf <-- get_raw_file ;;
  modify (set_raw_file_obj
            (mkRawFile (rf_processed rf) (rf_encoding rf) (rf_delimiter rf) (exn_str e))) ;;;
  modify save_raw_file ;;;
  raise (ValidationError ("CSV processing error: " ++ exn_str e)).

(** Body of [CSVProcessor.process_csv] without the decorator. *)
Definition process_csv_body (src : csv_source) : M summary :=
  try_except (process_csv_try src) process_csv_except.

(** [@transaction.atomic def process_csv(self, raw_file, dataset)] *)
Definition process_csv (src : csv_source) : M summary :=
  atomic (process_csv_body src).

End Processing.


(** ** [CSVProcessor.detect_encoding] *)

(** Result dict of [chardet.detect]. *)
Record detection : Type := mkDetection {
  det_encoding : option string;
  det_confidence : Q
}.

Section Encoding.

(** [chardet.detect] on a byte sample. *)
Variable chardet_detect : list Byte.byte -> result detection.

(** [file] is the content of the file, or the error raised by [open]. *)
Definition detect_encoding_body (file : result (list Byte.byte)) : result (option string) :=
  content <- file ;;
  let raw_data := firstn 10000 content in
  r <- chardet_detect raw_data ;;
  Ok (if Qltb (7 # 10) (det_confidence r) then det_encoding r else Some "utf-8").

Definition detect_encoding (file : result (list Byte.byte)) : result (option string) :=
  match detect_encoding_body file with
  | Ok enc => Ok enc
  | Err _ => Ok (Some "utf-8")
  end.

End Encoding.

(** ** [DataValidator] *)

(** A Python float: finite, infinite or NaN. *)
Inductive pyfloat : Type := Fin (q : Q) | PosInf | NegInf | NaN.

(** [float(n)] of an int raises once [n] rounds to [2 ** 1024] or beyond. *)
Definition int_to_float (z : Z) : result pyfloat :=
  if (2 ^ 1024 - 2 ^ 970 <=? Z.abs z)%Z
  then Err (OverflowError "int too large to convert to float")
  else Ok (Fin (inject_Z z)).

(** [x < b] and [x > b] for a float [x] and a finite number [b]. *)
Definition pyfloat_lt (x : pyfloat) (b : Q) : bool :=
  match x with Fin q => Qltb q b | NegInf => true | _ => false end.

Definition pyfloat_gt (x : pyfloat) (b : Q) : bool :=
  match x with Fin q => Qltb b q | PosInf => true | _ => false end.

(** The numeric value of a JSON number or bool used as a bound;
    [None] for values a float cannot be ordered against. *)
Definition bound_value (v : pyval) : option Q :=
  match v with
  | PInt z | PNpInt z | PNpUInt z => Some (inject_Z z)
  | PFloat q => Some q
  | PBool b | PNpBool b => Some (if b then 1 else 0)%Q
  | _ => None
  end.

(** Truthiness of a JSON value. *)
Definition truthy (v : pyval) : bool :=
  match v with
  | PNone => false
  | PBool b | PNpBool b => b
  | PInt z | PNpInt z | PNpUInt z => negb (Z.eqb z 0)
  | PFloat q => negb (Qeq_bool q 0)
  | PStr s => negb (String.eqb s EmptyString)
  end.

(** [rule_type] choices of [DataValidationRule]. *)
Inductive rule_kind : Type := RANGE | PATTERN | NOT_NULL | UNIQUE | CUSTOM.

Definition rule_kind_name (k : rule_kind) : string :=
  match k with
  | RANGE => "RANGE" | PATTERN => "PATTERN" | NOT_NULL => "NOT_NULL"
  | UNIQUE => "UNIQUE" | CUSTOM => "CUSTOM"
  end.

Record validation_rule : Type := mkRule {
  rule_column_name : string;
  rule_type : rule_kind;
  rule_config : pydict;
  rule_is_active : bool
}.

Section Validation.

Variable float_repr : Q -> string.

(** [float(s)] on a string; [None] when it raises [ValueError]. *)
Variable float_of_str : string -> option pyfloat.

(** The regular-expression engine: [re_compile] raises [re.error] on a
    malformed pattern; [re_match_end c s k] holds when the compiled
    pattern matches [s] from position 0 up to position [k]. *)
Variable compiled : Type.
Variable re_compile : string -> result compiled.
Variable re_match_end : compiled -> string -> nat -> bool.

(** [re.match(pattern, s) is not None] *)
Definition re_match (pattern s : string) : result bool :=
  c <- re_compile pattern ;;
  Ok (existsb (re_match_end c s) (seq 0 (S (String.length s)))).

(** [float(value)] *)
Definition to_float (v : pyval) : result pyfloat :=
  match v with
  | PNone => Err (TypeError "float() argument must be a string or a real number, not 'NoneType'")
  | PBool b | PNpBool b => Ok (Fin (if b then 1 else 0)%Q)
  | PInt z | PNpInt z | PNpUInt z => int_to_float z
  | PFloat q => Ok (Fin q)
  | PStr s =>
      match float_of_str s with
      | Some f => Ok f
      | None => Err (ValueError "could not convert string to float")
      end
  end.

Definition config_get (k : string) (config : pydict) : pyval :=
  match dict_get k config with Some v => v | None => PNone end.

(** [except (ValueError, TypeError): return False] *)
Definition catch_value_type_errors (r : result bool) : result bool :=
  match r with
  | Err (ValueError _) | Err (TypeError _) => Ok false
  | r => r
  end.

(** [value < bound] (or [>]) when [bound is not None]. *)
Definition compare_bound (test : pyfloat -> Q -> bool) (x : pyfloat) (bound : pyval) : result bool :=
  match bound with
  | PNone => Ok false
  | _ =>
      match bound_value bound with
      | Some b => Ok (test x b)
      | None => Err (TypeError "comparison not supported")
      end
  end.

(** [DataValidator.validate_range] *)
Definition validate_range (value : pyval) (config : pydict) : result bool :=
  catch_value_type_errors
    (num_value <- to_float value ;;
     let min_val := config_get "min" config in
     let max_val := config_get "max" config in
     below <- compare_bound pyfloat_lt num_value min_val ;;
     if below then Ok false else
     above <- compare_bound pyfloat_gt num_value max_val ;;
     if above then Ok false else
     Ok true).

(** [DataValidator.validate_pattern] *)
Definition validate_pattern (value : pyval) (config : pydict) : result bool :=
  let body :=
    let pattern := config_get "pattern" config in
    if truthy pattern then
      match pattern with
      | PStr p => re_match p (py_str float_repr value)
      | _ => Err (TypeError "first argument must be string or compiled pattern")
      end
    else Ok true in
  match body with
  | Ok b => Ok b
  | Err _ => Ok false
  end.

(** [DataValidator.validate_not_null] *)
Definition validate_not_null (value : pyval) (config : pydict) : result bool :=
  Ok (match value with
      | PNone => false
      | PStr s => negb (String.eqb s EmptyString)
      | _ => true
      end).

(** [getattr(self, 'validate_' + rule_type.lower(), None)] over the
    validator methods of [DataValidator]. *)
Definition getattr_validator (name : string) : option (pyval -> pydict -> result bool) :=
  if String.eqb name "validate_range" then Some validate_range
  else if String.eqb name "validate_pattern" then Some validate_pattern
  else if String.eqb name "validate_not_null" then Some validate_not_null
  else None.

Definition failure_message (rule : validation_rule) : string :=
  rule_column_name rule ++ ": " ++ rule_kind_name (rule_type rule) ++ " validation failed".

(** The [for rule in validation_rules] loop, accumulating [errors]. *)
Fixpoint check_rules (record_data : pydict) (rules : list validation_rule)
    (errors : list string) : result (list string) :=
  match rules with
  | [] => Ok errors
  | rule :: rest =>
      let value := config_get (rule_column_name rule) record_data in
      match getattr_validator ("validate_" ++ str_lower (rule_kind_name (rule_type rule))) with
      | Some validator_method =>
          ok <- validator_method value (rule_config rule) ;;
          check_rules record_data rest
            (if ok then errors else (errors ++ [failure_message rule])%list)
      | None => check_rules record_data rest errors
      end
  end.

(** [DataValidator.validate_record]; [rules] are the dataset's rules. *)
Definition validate_record (record_data : pydict) (rules : list validation_rule)
    : result (bool * list string) :=
  errors <- check_rules record_data (filter rule_is_active rules) [] ;;
  Ok (Nat.eqb (length errors) 0, errors).

End Validation.

(** ** Concrete inputs *)

(** The spec's scenario file [speed,rpm / 10,1000 / ,1200 / 10,1000]. *)
Definition scenario_table : table :=
  mkTable ["speed"; "rpm"] []
    [[Some "10"; Some "1000"]; [None; Some "1200"]; [Some "10"; Some "1000"]].

Definition scenario_source : csv_source := mkSource "ascii" "," (Ok scenario_table).

(** A file holding the header line only: [speed,rpm]. *)
Definition header_only_source : csv_source :=
  mkSource "ascii" "," (Ok (mkTable ["speed"; "rpm"] [] [])).

(** The file [name,val / x,1, / y,2,]: each data row has one field more
    than the header, so [read_csv] makes the first field the index
    ([x], [y]) and reads [name] = 1, 2 and [val] empty. *)
Definition implicit_index_table : table :=
  mkTable ["name"; "val"] [[Some "x"; Some "y"]] [[Some "1"; None]; [Some "2"; None]].

Definition implicit_index_source : csv_source :=
  mkSource "ascii" "," (Ok implicit_index_table).

Definition fresh_raw_file : raw_file_row := mkRawFile false "utf-8" "," EmptyString.

Definition initial_state : state := mkState (mkDb fresh_raw_file 0 [] [] []) fresh_raw_file.

(** Digest used in the concrete runs below, whose conclusions do not
    depend on the digest function. *)
Definition demo_digest (s : string) : string := s.

(** ** Auxiliary definitions for the validation proofs *)

(** Whether an active rule fails on [record_data]: its validator exists
    and returns [False]. *)
Definition rule_fails (float_repr : Q -> string) (float_of_str : string -> option pyfloat)
    {compiled : Type} (re_compile : string -> result compiled)
    (re_match_end : compiled -> string -> nat -> bool)
    (record_data : pydict) (rule : validation_rule) : bool :=
  match getattr_validator float_repr float_of_str compiled re_compile re_match_end
          ("validate_" ++ str_lower (rule_kind_name (rule_type rule))) with
  | Some m =>
      match m (config_get (rule_column_name rule) record_data) (rule_config rule) with
      | Ok false => true
      | _ => false
      end
  | None => false
  end.

(** A literal-prefix matcher, standing for [re] on patterns without
    metacharacters: the pattern matches [s] up to [k] when it equals the
    first [k] characters of [s]. *)
Definition literal_compile (p : string) : result string := Ok p.

Definition literal_match_end (c s : string) (k : nat) : bool :=
  String.eqb (substring 0 k s) c.

Definition no_float (s : string) : option pyfloat := None.

(** ** [CSVProcessor.detect_delimiter] *)

Definition newline : ascii := ascii_of_N 10.
Definition tab : ascii := ascii_of_N 9.

(** [f.readline()] on the decoded text of a file opened in text mode:
    universal newlines end a line at LF or CR (CRLF is read as one LF),
    and the line is returned with a LF. *)
Fixpoint readline (s : string) : string :=
  match s with
  | EmptyString => EmptyString
  | String c s' =>
      if (N_of_ascii c =? 10)%N || (N_of_ascii c =? 13)%N then String newline EmptyString
      else String c (readline s')
  end.

(** [first_line.count(delimiter)] for a one-character delimiter. *)
Fixpoint count_char (d : ascii) (s : string) : nat :=
  match s with
  | EmptyString => 0
  | String c s' => (if Ascii.eqb c d then 1 else 0) + count_char d s'
  end.

(** [delimiters = [',', ';', '\t', '|']] *)
Definition delimiters : list ascii := [","%char; ";"%char; tab; "|"%char].

(** [delimiter_counts], a dict in insertion order. *)
Definition delimiter_counts (first_line : string) : list (ascii * nat) :=
  map (fun d => (d, count_char d first_line)) delimiters.

(** [max(iterable, key=...)]: the first item whose key is the largest; the
    current maximum is replaced only by a strictly larger key. *)
Fixpoint max_by_count (best : ascii * nat) (l : list (ascii * nat)) : ascii * nat :=
  match l with
  | [] => best
  | x :: l' => if Nat.ltb (snd best) (snd x) then max_by_count x l' else max_by_count best l'
  end.

(** [CSVProcessor.detect_delimiter]; [file] is the decoded text of the
    file, or the exception raised by [open] or [readline]. *)
Definition detect_delimiter (file : result string) : ascii :=
  match file with
  | Err _ => ","%char
  | Ok text =>
      let first_line := readline text in
      match delimiter_counts first_line with
      | [] => ","%char
      | first :: rest =>
          let '(best_delimiter, best_count) := max_by_count first rest in
          if Nat.ltb 0 best_count then best_delimiter else ","%char
      end
  end.

(** A value [json.dumps] can encode: not a numpy scalar. *)
Definition json_serializable (v : pyval) : bool :=
  match v with PNpInt _ | PNpUInt _ | PNpBool _ => false | _ => true end.

Definition is_ok {A} (r : result A) : bool :=
  match r with Ok _ => true | Err _ => false end.

(** * Proofs *)

(** ** Key order used by [sort_keys] *)

Lemma str_compare_lt_trans : forall s1 s2 s3,
  String.compare s1 s2 = Lt -> String.compare s2 s3 = Lt -> String.compare s1 s3 = Lt.
Proof.
  induction s1 as [|c1 s1 IH]; intros [|c2 s2] [|c3 s3]; simpl; try discriminate; auto.
  unfold Ascii.compare.
  destruct (N.compare_spec (N_of_ascii c1) (N_of_ascii c2));
  destruct (N.compare_spec (N_of_ascii c2) (N_of_ascii c3)); intros H1 H2;
  try discriminate;
  destruct (N.compare_spec (N_of_ascii c1) (N_of_ascii c3)); try lia; eauto.
Qed.

Lemma str_leb_trans : forall a b c,
  String.leb a b = true -> String.leb b c = true -> String.leb a c = true.
Proof.
  unfold String.leb; intros a b c.
  destruct (String.compare a b) eqn:Hab; try discriminate;
  destruct (String.compare b c) eqn:Hbc; try discriminate; intros _ _.
  - pose proof (String.compare_eq_iff _ _ Hab); subst. rewrite Hbc; reflexivity.
  - pose proof (String.compare_eq_iff _ _ Hab); subst. rewrite Hbc; reflexivity.
  - pose proof (String.compare_eq_iff _ _ Hbc); subst. rewrite Hab; reflexivity.
  - rewrite (str_compare_lt_trans _ _ _ Hab Hbc); reflexivity.
Qed.

Lemma str_leb_false : forall a b, String.leb a b = false -> String.leb b a = true.
Proof.
  intros a b H. destruct (String.leb_total a b) as [H'|H']; congruence.
Qed.

Lemma str_leb_neq : forall a b, a <> b -> String.leb a b = true -> String.leb b a = false.
Proof.
  intros a b Hne H. destruct (String.leb b a) eqn:E; auto.
  exfalso. apply Hne, String.leb_antisym; assumption.
Qed.

(** ** Sorting the items of a dict *)

Lemma insert_item_comm : forall a b d, fst a <> fst b ->
  insert_item a (insert_item b d) = insert_item b (insert_item a d).
Proof.
  intros a b d Hne. induction d as [|y d IH]; simpl.
  - destruct (String.leb (fst a) (fst b)) eqn:Eab.
    + rewrite (str_leb_neq _ _ Hne Eab); reflexivity.
    + rewrite (str_leb_false _ _ Eab); reflexivity.
  - destruct (String.leb (fst b) (fst y)) eqn:Eby;
    destruct (String.leb (fst a) (fst y)) eqn:Eay; simpl;
    rewrite ?Eby, ?Eay.
    + destruct (String.leb (fst a) (fst b)) eqn:Eab.
      * rewrite (str_leb_neq _ _ Hne Eab); reflexivity.
      * rewrite (str_leb_false _ _ Eab); reflexivity.
    + destruct (String.leb (fst a) (fst b)) eqn:Eab; [|reflexivity].
      rewrite (str_leb_trans _ _ _ Eab Eby) in Eay; discriminate.
    + destruct (String.leb (fst b) (fst a)) eqn:Eba; [|reflexivity].
      rewrite (str_leb_trans _ _ _ Eba Eay) in Eby; discriminate.
    + rewrite IH; reflexivity.
Qed.

Lemma sort_items_perm : forall d1 d2, Permutation d1 d2 ->
  NoDup (map fst d1) -> sort_items d1 = sort_items d2.
Proof.
  intros d1 d2 HP. induction HP as [|x l l' HP IH|x y l|l l' l'' HP1 IH1 HP2 IH2];
  simpl; intros Hnd.
  - reflexivity.
  - inversion Hnd; subst. rewrite IH; auto.
  - inversion Hnd as [|? ? Hnin Hnd']; subst. inversion Hnd'; subst.
    apply insert_item_comm. intros E. apply Hnin. rewrite E. left; reflexivity.
  - rewrite IH1 by assumption. apply IH2.
    eapply Permutation_NoDup; [apply Permutation_map; exact HP1|exact Hnd].
Qed.

Lemma dict_get_In : forall d k v, NoDup (map fst d) ->
  (In (k, v) d <-> dict_get k d = Some v).
Proof.
  induction d as [|[k' v'] d IH]; simpl; intros k v Hnd.
  - split; [contradiction|discriminate].
  - inversion Hnd as [|? ? Hnin Hnd']; subst.
    destruct (String.eqb_spec k k') as [->|Hne].
    + split.
      * intros [E|Hin]; [congruence|].
        exfalso. apply Hnin. change k' with (fst (k', v)). apply in_map; exact Hin.
      * intros E; left; congruence.
    + rewrite <- IH by assumption. split.
      * intros [E|Hin]; [congruence|exact Hin].
      * intros Hin; right; exact Hin.
Qed.

Lemma same_mapping_perm : forall d1 d2,
  NoDup (map fst d1) -> NoDup (map fst d2) ->
  (forall k, dict_get k d1 = dict_get k d2) -> Permutation d1 d2.
Proof.
  intros d1 d2 H1 H2 Hget. apply NoDup_Permutation.
  - eapply NoDup_map_inv; exact H1.
  - eapply NoDup_map_inv; exact H2.
  - intros [k v]. rewrite (dict_get_In d1 k v H1), (dict_get_In d2 k v H2), Hget.
    reflexivity.
Qed.

(** ** Content hash *)

(** Claim C6: [generate_data_hash] serialises the row dict with its keys
    sorted before hashing, so two rows with equal value mappings (keys
    in any order, null values included) get the same canonical JSON and
    the same hash, whatever the printer of floats and the digest. *)
Theorem generate_data_hash_mapping_invariant :
  forall (float_repr : Q -> string) (sha256_hex : string -> string) (d1 d2 : pydict),
    NoDup (map fst d1) -> NoDup (map fst d2) ->
    (forall k, dict_get k d1 = dict_get k d2) ->
    json_dumps_sorted float_repr d1 = json_dumps_sorted float_repr d2 /\
    generate_data_hash float_repr sha256_hex d1 = generate_data_hash float_repr sha256_hex d2.
Proof.
  intros float_repr sha256_hex d1 d2 H1 H2 Hget.
  assert (Hs : sort_items d1 = sort_items d2)
    by (apply sort_items_perm; [apply same_mapping_perm|]; assumption).
  unfold generate_data_hash, json_dumps_sorted. rewrite Hs. split; reflexivity.
Qed.

Lemma generate_data_hash_mapping_invariant_witness :
  let d1 := [("speed", PNone); ("rpm", PFloat 1000)] in
  let d2 := [("rpm", PFloat 1000); ("speed", PNone)] in
  (NoDup (map fst d1) /\ NoDup (map fst d2) /\ forall k, dict_get k d1 = dict_get k d2) /\
  json_dumps_sorted demo_float_repr d1 = json_dumps_sorted demo_float_repr d2 /\
  generate_data_hash demo_float_repr demo_digest d1 = generate_data_hash demo_float_repr demo_digest d2.
Proof.
  intros d1 d2.
  assert (H1 : NoDup (map fst d1)) by (repeat constructor; simpl; intuition discriminate).
  assert (H2 : NoDup (map fst d2)) by (repeat constructor; simpl; intuition discriminate).
  assert (H3 : forall k, dict_get k d1 = dict_get k d2).
  { intros k. simpl.
    destruct (String.eqb_spec k "speed"); destruct (String.eqb_spec k "rpm"); subst;
      try reflexivity; discriminate. }
  split; [split; [exact H1|split; [exact H2|exact H3]]|].
  apply (generate_data_hash_mapping_invariant demo_float_repr demo_digest d1 d2 H1 H2 H3).
Defined.

(** ** Column type inference *)

Lemma forallb_andb : forall {A} (f g : A -> bool) (l : list A),
  forallb (fun x => f x && g x) l = true -> forallb f l = true /\ forallb g l = true.
Proof.
  intros A f g l. induction l as [|x l IH]; simpl; [split; reflexivity|].
  intros H. apply andb_prop in H as [Hx Hl]. apply andb_prop in Hx as [Hf Hg].
  destruct (IH Hl) as [H1 H2]. rewrite Hf, Hg, H1, H2. split; reflexivity.
Qed.

Lemma dropna_read_csv_elems : forall d b cells,
  dropna (map (read_csv_elem d b) cells) = map (fun s => read_csv_elem d b (Some s)) (somes cells).
Proof.
  intros d b cells. induction cells as [|[s|] cells IH]; simpl; [reflexivity| |exact IH].
  rewrite IH.
  destruct d; simpl; try reflexivity;
    destruct (bool_literal s) as [[]|]; destruct b; reflexivity.
Qed.

(** Claim C5 (as amended): inference reads the column as [read_csv]
    stored it.  An entirely null column is STRING; an int64 or uint64
    column is INTEGER; a float64 column is FLOAT.  A bool or object
    column goes through the chain: when [pd.to_numeric] accepts every
    non-null value it is FLOAT if some [str(value)] contains a dot and
    INTEGER otherwise; else DATETIME when [pd.to_datetime] accepts the
    values; else BOOLEAN when the lower-cased values lie within
    {true,false,1,0,yes,no}; else STRING.  A column of integer cells
    within int64 with a missing cell is stored as float64, hence FLOAT. *)
Theorem infer_column_type_priority_chain :
  forall (float_repr : Q -> string) (pd : pandas_ops),
    (forall c : column,
       let nn := dropna (col_elems c) in
       let ty := infer_column_type float_repr pd c in
       (nn = [] -> ty = STRING) /\
       (nn <> [] ->
        ((col_dtype c = DInt64 \/ col_dtype c = DUInt64) -> ty = INTEGER) /\
        (col_dtype c = DFloat64 -> ty = FLOAT) /\
        ((col_dtype c = DBool \/ col_dtype c = DObject) ->
         (forallb (to_numeric_ok pd) nn = true ->
          ty = if existsb (fun v => str_contains_dot (elem_str float_repr v)) nn
               then FLOAT else INTEGER) /\
         (forallb (to_numeric_ok pd) nn = false ->
          pd_to_datetime_series pd nn = true -> ty = DATETIME) /\
         (forallb (to_numeric_ok pd) nn = false ->
          pd_to_datetime_series pd nn = false ->
          forallb (fun v => in_bool_words (str_lower (elem_str float_repr v))) nn = true ->
          ty = BOOLEAN) /\
         (forallb (to_numeric_ok pd) nn = false ->
          pd_to_datetime_series pd nn = false ->
          forallb (fun v => in_bool_words (str_lower (elem_str float_repr v))) nn = false ->
          ty = STRING)))) /\
    (forall (name : string) (cells : list (option string)),
       somes cells <> [] -> has_none cells = true ->
       forallb (fun s => is_int_text s && in_int64 (int_value s)) (somes cells) = true ->
       col_dtype (read_csv_column name cells) = DFloat64 /\
       infer_column_type float_repr pd (read_csv_column name cells) = FLOAT).
Proof.
  intros float_repr pd. split.
  - intros c nn ty. unfold ty, nn, infer_column_type. cbv zeta.
    destruct (dropna (col_elems c)) as [|e es].
    + split; [intros _; reflexivity|intros H; contradiction].
    + split; [intros H; discriminate|intros _].
      destruct (col_dtype c);
        repeat split; intros;
        repeat match goal with H : _ \/ _ |- _ => destruct H end;
        try discriminate; try reflexivity;
        repeat match goal with
               | H : ?x = true |- _ => rewrite H; clear H
               | H : ?x = false |- _ => rewrite H; clear H
               end; reflexivity.
  - intros name cells Hne Hn Hall.
    destruct (forallb_andb _ _ _ Hall) as [Hi Hr].
    assert (Hd : read_csv_dtype cells = DFloat64).
    { unfold read_csv_dtype. destruct (somes cells) as [|s l]; [contradiction|].
      rewrite Hi, Hr, Hn. reflexivity. }
    unfold read_csv_column. cbv zeta. rewrite Hd. split; [reflexivity|].
    unfold infer_column_type. cbn [col_elems col_dtype].
    rewrite dropna_read_csv_elems.
    destruct (somes cells); [contradiction|reflexivity].
Qed.

Lemma infer_column_type_priority_chain_witness :
  (somes [Some "10"; None; Some "10"] <> [] /\ has_none [Some "10"; None; Some "10"] = true /\
   forallb (fun s => is_int_text s && in_int64 (int_value s)) (somes [Some "10"; None; Some "10"])
     = true) /\
  infer_column_type demo_float_repr demo_pandas (read_csv_column "speed" [Some "10"; None; Some "10"])
    = FLOAT /\
  infer_column_type demo_float_repr demo_pandas
    (read_csv_column "date" [Some "2024-01-01"; None; Some "2024-01-02"]) = DATETIME.
Proof.
  assert (H1 : somes [Some "10"; None; Some "10"] <> []) by discriminate.
  assert (H2 : has_none [Some "10"; None; Some "10"] = true) by reflexivity.
  assert (H3 : forallb (fun s => is_int_text s && in_int64 (int_value s))
                 (somes [Some "10"; None; Some "10"]) = true) by (vm_compute; reflexivity).
  split; [split; [exact H1|split; [exact H2|exact H3]]|].
  split.
  - exact (proj2 (proj2 (infer_column_type_priority_chain demo_float_repr demo_pandas)
                    "speed" [Some "10"; None; Some "10"] H1 H2 H3)).
  - pose proof (proj1 (infer_column_type_priority_chain demo_float_repr demo_pandas)
                 (read_csv_column "date" [Some "2024-01-01"; None; Some "2024-01-02"])) as Hc.
    cbv zeta in Hc. destruct Hc as [_ Hc].
    destruct (Hc ltac:(vm_compute; discriminate)) as (_ & _ & Hb).
    destruct (Hb ltac:(right; vm_compute; reflexivity)) as (_ & Hd & _).
    apply Hd; vm_compute; reflexivity.
Defined.

(** Claim C5 (counterexample): the column [10, <missing>, 10] holds only
    integers, so the chain of the claim gives INTEGER (before any date
    test), but [read_csv] stores it as float64 and inference returns
    FLOAT. *)
Lemma infer_column_type_int_with_missing_cell :
  spec_infer_type (fun s => match datetime_iso s with Some _ => true | None => false end)
    [Some "10"; None; Some "10"] = INTEGER /\
  infer_column_type demo_float_repr demo_pandas
    (read_csv_column "speed" [Some "10"; None; Some "10"]) = FLOAT.
Proof. split; vm_compute; reflexivity. Qed.

(** ** The row loop of [process_csv] *)

Lemma fold_row_step_err : forall fr sh pd types df ix idxs e,
  fold_left (row_step fr sh pd types df ix) idxs (Err e) = Err e.
Proof.
  intros fr sh pd types df ix idxs. induction idxs as [|i idxs IH]; intros e; [reflexivity|].
  exact (IH e).
Qed.

Lemma fold_row_step_counts : forall fr sh pd types df ix idxs recs dup err recs' dup' err',
  fold_left (row_step fr sh pd types df ix) idxs (Ok (recs, dup, err)) = Ok (recs', dup', err') ->
  length recs' + err' = length recs + err + length idxs /\ dup' = dup.
Proof.
  intros fr sh pd types df ix idxs. induction idxs as [|i idxs IH];
    intros recs dup err recs' dup' err' H; cbn [fold_left] in H.
  - injection H as <- <- <-. split; [simpl; lia|reflexivity].
  - unfold row_step at 2 in H. cbn [bind] in H.
    destruct (process_row fr sh pd types df ix i) as [r|e].
    + apply IH in H. rewrite length_app in H. simpl in H |- *. destruct H; split; [lia|assumption].
    + destruct (label_add1 (row_label_at ix i)) as [v|e']; cbn [bind] in H.
      * apply IH in H. simpl. destruct H; split; [lia|assumption].
      * rewrite fold_row_step_err in H. discriminate.
Qed.

Lemma materialize_rows_counts : forall fr sh pd types df ix n recs dup err,
  materialize_rows fr sh pd types df ix n = Ok (recs, dup, err) ->
  length recs + err = n /\ dup = 0.
Proof.
  intros fr sh pd types df ix n recs dup err H. unfold materialize_rows in H.
  apply fold_row_step_counts in H. rewrite length_seq in H. simpl in H.
  destruct H; split; lia.
Qed.

(** Under the default index every label is an int, so the handler never
    raises and the loop runs to its end. *)
Lemma fold_row_step_range : forall fr sh pd types df idxs recs dup err,
  exists recs' err',
    fold_left (row_step fr sh pd types df []) idxs (Ok (recs, dup, err)) = Ok (recs', dup, err') /\
    map stg_row_number recs' =
      (map stg_row_number recs ++
       map (fun i => EInt (Z.of_nat i + 1))
           (filter (fun i => is_ok (process_row fr sh pd types df [] i)) idxs))%list.
Proof.
  intros fr sh pd types df idxs. induction idxs as [|i idxs IH]; intros recs dup err.
  - exists recs, err. split; [reflexivity|]. simpl. rewrite app_nil_r. reflexivity.
  - cbn [fold_left filter]. unfold row_step at 2. cbn [bind].
    destruct (process_row fr sh pd types df [] i) as [r|e] eqn:Hp; cbn [is_ok].
    + destruct (IH (recs ++ [r])%list dup err) as (recs' & err' & H1 & H2).
      exists recs', err'. split; [exact H1|]. rewrite H2, map_app, <- app_assoc. simpl.
      unfold process_row, bind in Hp.
      destruct (build_row _ _ _ _ _ _); [|discriminate].
      destruct (generate_data_hash _ _ _); [|discriminate].
      cbn in Hp. injection Hp as <-. reflexivity.
    + cbn [label_add1 row_label_at bind].
      destruct (IH recs dup (err + 1)) as (recs' & err' & H1 & H2).
      exists recs', err'. split; assumption.
Qed.

Lemma prep_records_length : forall recs rows,
  prep_records recs = Ok rows -> length rows = length recs.
Proof.
  induction recs as [|r recs IH]; intros rows H; simpl in H.
  - injection H as <-. reflexivity.
  - destruct (row_number_int (stg_row_number r)); cbn [bind] in H; [|discriminate].
    destruct (prep_records recs) as [rest|]; cbn [bind] in H; [|discriminate].
    injection H as <-. simpl. f_equal. apply IH. reflexivity.
Qed.

Lemma prep_records_ints : forall recs zs,
  map stg_row_number recs = map EInt zs ->
  exists rows, prep_records recs = Ok rows /\ map rec_row_number rows = zs.
Proof.
  induction recs as [|r recs IH]; intros [|z zs] H; try discriminate.
  - exists []. split; reflexivity.
  - simpl in H. injection H as Hr Hrs. destruct (IH zs Hrs) as (rows & Hp & Hz).
    exists (mkDataRecord z (stg_data r) (stg_data_hash r) :: rows).
    simpl. rewrite Hr. simpl. rewrite Hp. simpl. rewrite Hz. split; reflexivity.
Qed.

Lemma nodupb_Z_NoDup : forall l, NoDup l -> nodupb_Z l = true.
Proof.
  induction l as [|z l IH]; intros H; [reflexivity|].
  inversion H as [|? ? Hnin Hnd]; subst. simpl. rewrite IH by exact Hnd.
  destruct (existsb (Z.eqb z) l) eqn:He; [|reflexivity].
  apply existsb_exists in He as (x & Hx & Heq). apply Z.eqb_eq in Heq. subst. contradiction.
Qed.

Lemma range_row_numbers_NoDup : forall (p : nat -> bool) n,
  NoDup (map (fun i => Z.of_nat i + 1)%Z (filter p (seq 0 n))).
Proof.
  intros p n. apply Finite.Injective_map_NoDup.
  - intros x y H. lia.
  - apply NoDup_filter, seq_NoDup.
Qed.

(** Under the default index the loop ends normally and [bulk_create]
    stores the staged rows, numbered by position + 1. *)
Lemma range_rows_stored : forall fr sh pd types df n,
  exists recs err rows,
    materialize_rows fr sh pd types df [] n = Ok (recs, 0, err) /\
    prep_records recs = Ok rows /\
    map rec_row_number rows =
      map (fun i => Z.of_nat i + 1)%Z
        (filter (fun i => is_ok (process_row fr sh pd types df [] i)) (seq 0 n)) /\
    nodupb_Z (map rec_row_number rows) = true.
Proof.
  intros fr sh pd types df n.
  destruct (fold_row_step_range fr sh pd types df (seq 0 n) [] 0 0) as (recs & err & Hm & Hn).
  rewrite <- map_map with (g := EInt) in Hn.
  destruct (prep_records_ints recs _ Hn) as (rows & Hp & Hz).
  exists recs, err, rows. split; [exact Hm|]. split; [exact Hp|]. split; [exact Hz|].
  rewrite Hz. apply nodupb_Z_NoDup, range_row_numbers_NoDup.
Qed.

Ltac run_process Hsrc :=
  unfold process_csv, atomic, process_csv_body, try_except, process_csv_try, mbind, lift;
  rewrite Hsrc.

Lemma df_empty_len : forall t, df_empty t = false -> df_len t <> 0.
Proof.
  intros [h ix rows] H. unfold df_empty in H; unfold df_len; simpl in *.
  destruct h; [discriminate|]. destruct rows; [discriminate|]. simpl; lia.
Qed.

Lemma create_schema_rows_run : forall l s,
  create_schema_rows l s =
    (Ok tt, let d := st_db s in
            mkState (mkDb (db_raw_file d) (db_total_rows d) (db_schema d ++ l) (db_records d)
                          (db_reports d)) (st_raw_file s)).
Proof.
  induction l as [|r l IH]; intros [[rf n sc rs rp] raw].
  - simpl. rewrite app_nil_r. reflexivity.
  - simpl. unfold mbind, modify. rewrite IH. simpl. rewrite <- app_assoc. reflexivity.
Qed.

(** A run on a non-empty table whose loop ends normally and whose rows
    [bulk_create] accepts commits, with this summary and state. *)
Lemma process_csv_ok : forall fr sh pd src s0 t recs dup err rows,
  src_table src = Ok t -> df_empty t = false ->
  materialize_rows fr sh pd (infer_column_types fr pd (frame_of_table t)) (frame_of_table t)
    (index_of_table t) (df_len t) = Ok (recs, dup, err) ->
  prep_records recs = Ok rows -> nodupb_Z (map rec_row_number rows) = true ->
  let df := frame_of_table t in
  let types := infer_column_types fr pd df in
  let report := mkQualityReport (Z.of_nat (df_len t)) (Z.of_nat (df_len t) - Z.of_nat err)
                  (Z.of_nat err) (Z.of_nat dup) (map column_quality_of df) in
  let raw := mkRawFile true (src_encoding src) (src_delimiter src)
               (rf_processing_error (st_raw_file s0)) in
  process_csv fr sh pd src s0 =
    (Ok (mkSummary true (df_len t) (length recs) err dup (map fst types)
           (Qmult (Qmake (qr_valid_records report) (Z.to_pos (qr_total_records report)))
                  (inject_Z 100))),
     mkState (mkDb raw (length recs) (schema_rows df types 0) rows
                   (report :: db_reports (st_db s0))) raw).
Proof.
  intros fr sh pd src s0 t recs dup err rows Hsrc He Hm Hp Hnd.
  run_process Hsrc. rewrite He.
  unfold modify at 1. rewrite create_schema_rows_run.
  rewrite Hm. unfold bulk_create at 1. rewrite Hp.
  unfold modify at 1. cbn [db_records st_db delete_records app].
  rewrite Hnd.
  unfold modify, get_raw_file, ret, create_quality_report, raise, quality_score; simpl.
  pose proof (df_empty_len t He) as Hn.
  destruct (Z.of_nat (df_len t) =? 0)%Z eqn:Hz; [apply Z.eqb_eq in Hz; lia|].
  reflexivity.
Qed.

(** Every failing run leaves the database as it was at entry and raises
    a [ValidationError]. *)
Lemma process_csv_err : forall fr sh pd src s0 e s1,
  process_csv fr sh pd src s0 = (Err e, s1) ->
  st_db s1 = st_db s0 /\ exists m, e = ValidationError m.
Proof.
  intros fr sh pd src s0 e s1 H.
  unfold process_csv, atomic, process_csv_body, try_except in H.
  destruct (process_csv_try fr sh pd src s0) as [[a|e'] s'] eqn:Et.
  - discriminate.
  - unfold process_csv_except, mbind, get_raw_file, modify, raise in H. simpl in H.
    inversion H; subst. split; [reflexivity|eexists; reflexivity].
Qed.

Lemma process_csv_Ok_inv : forall fr sh pd src s0 sm s1,
  process_csv fr sh pd src s0 = (Ok sm, s1) ->
  exists t recs dup err rows,
    src_table src = Ok t /\ df_empty t = false /\
    materialize_rows fr sh pd (infer_column_types fr pd (frame_of_table t)) (frame_of_table t)
      (index_of_table t) (df_len t) = Ok (recs, dup, err) /\
    prep_records recs = Ok rows /\ nodupb_Z (map rec_row_number rows) = true.
Proof.
  intros fr sh pd src s0 sm s1 H.
  destruct (src_table src) as [t|e] eqn:Hsrc; [|revert H; run_process Hsrc; simpl; discriminate].
  destruct (df_empty t) eqn:He; [revert H; run_process Hsrc; rewrite He; simpl; discriminate|].
  destruct (materialize_rows fr sh pd (infer_column_types fr pd (frame_of_table t))
              (frame_of_table t) (index_of_table t) (df_len t)) as [[[recs dup] err]|e] eqn:Hm.
  - destruct (prep_records recs) as [rows|e] eqn:Hp.
    + destruct (nodupb_Z (map rec_row_number rows)) eqn:Hnd.
      * exists t, recs, dup, err, rows. repeat split; assumption.
      * exfalso. revert H. run_process Hsrc. rewrite He.
        unfold modify at 1. rewrite create_schema_rows_run.
        rewrite Hm. unfold bulk_create at 1. rewrite Hp.
        unfold modify at 1. cbn [db_records st_db delete_records app].
        rewrite Hnd. simpl. discriminate.
    + exfalso. revert H. run_process Hsrc. rewrite He.
      unfold modify at 1. rewrite create_schema_rows_run.
      rewrite Hm. unfold bulk_create at 1. rewrite Hp. simpl. discriminate.
  - exfalso. revert H. run_process Hsrc. rewrite He.
    unfold modify at 1. rewrite create_schema_rows_run.
    rewrite Hm. simpl. discriminate.
Qed.

Lemma process_csv_Ok_shape : forall fr sh pd src s0 sm s1,
  process_csv fr sh pd src s0 = (Ok sm, s1) ->
  exists t recs dup err rows,
    src_table src = Ok t /\ df_empty t = false /\
    materialize_rows fr sh pd (infer_column_types fr pd (frame_of_table t)) (frame_of_table t)
      (index_of_table t) (df_len t) = Ok (recs, dup, err) /\
    prep_records recs = Ok rows /\
    let df := frame_of_table t in
    let types := infer_column_types fr pd df in
    let report := mkQualityReport (Z.of_nat (df_len t)) (Z.of_nat (df_len t) - Z.of_nat err)
                    (Z.of_nat err) (Z.of_nat dup) (map column_quality_of df) in
    let raw := mkRawFile true (src_encoding src) (src_delimiter src)
                 (rf_processing_error (st_raw_file s0)) in
    sm = mkSummary true (df_len t) (length recs) err dup (map fst types)
           (Qmult (Qmake (qr_valid_records report) (Z.to_pos (qr_total_records report)))
                  (inject_Z 100)) /\
    s1 = mkState (mkDb raw (length recs) (schema_rows df types 0) rows
                       (report :: db_reports (st_db s0))) raw.
Proof.
  intros fr sh pd src s0 sm s1 H.
  destruct (process_csv_Ok_inv _ _ _ _ _ _ _ H) as (t & recs & dup & err & rows & Hsrc & He & Hm & Hp & Hnd).
  exists t, recs, dup, err, rows. do 4 (split; [assumption|]).
  rewrite (process_csv_ok fr sh pd src s0 t recs dup err rows Hsrc He Hm Hp Hnd) in H.
  injection H as Hsm Hs1. split; symmetry; assumption.
Qed.

(** [duplicate_count] is never incremented: every committed run reports
    zero duplicates. *)
Lemma process_csv_duplicate_rows_zero : forall fr sh pd src s0 sm s1,
  process_csv fr sh pd src s0 = (Ok sm, s1) ->
  sm_duplicate_rows sm = 0 /\
  exists r rest, db_reports (st_db s1) = r :: rest /\ qr_duplicate_records r = 0%Z.
Proof.
  intros fr sh pd src s0 sm s1 H.
  destruct (process_csv_Ok_shape _ _ _ _ _ _ _ H)
    as (t & recs & dup & err & rows & Hsrc & He & Hm & Hp & -> & ->).
  destruct (materialize_rows_counts _ _ _ _ _ _ _ _ _ _ Hm) as [_ Hd]. subst dup.
  split; [reflexivity|]. eexists _, _. split; reflexivity.
Qed.

(** Claim C1 (code bug): on the scenario file rows 1 and 3 carry the same
    data and the same content hash, yet the committed run reports zero
    duplicate rows, in the summary and in the quality report. *)
Theorem process_csv_scenario_duplicates_unreported :
  forall (float_repr : Q -> string) (sha256_hex : string -> string) (pd : pandas_ops)
         (s0 : state),
  exists sm s1,
    process_csv float_repr sha256_hex pd scenario_source s0 = (Ok sm, s1) /\
    (exists r1 r3,
        nth_error (db_records (st_db s1)) 0 = Some r1 /\
        nth_error (db_records (st_db s1)) 2 = Some r3 /\
        rec_row_number r1 = 1%Z /\ rec_row_number r3 = 3%Z /\
        rec_data r1 = rec_data r3 /\ rec_data_hash r1 = rec_data_hash r3) /\
    sm_duplicate_rows sm = 0 /\
    (exists r rest, db_reports (st_db s1) = r :: rest /\ qr_duplicate_records r = 0%Z).
Proof.
  intros float_repr sha256_hex pd s0.
  destruct (process_csv float_repr sha256_hex pd scenario_source s0) as [[sm|e] s1] eqn:H.
  - exists sm, s1. split; [reflexivity|].
    split.
    + revert H. vm_compute. intros H. inversion H; subst; clear H. simpl.
      eexists _, _. repeat split; reflexivity.
    + apply (process_csv_duplicate_rows_zero _ _ _ _ _ _ _ H).
  - exfalso. revert H. vm_compute. discriminate.
Qed.

(** Claim C4 (code bug): the file [name,val / x,1, / y,2,] has a column
    and rows, but its data rows have one field more than the header, so
    [read_csv] takes their first field as the index and [iterrows] yields
    the labels ['x'] and ['y'].  [row_number=idx + 1] raises [TypeError];
    the handler's log message evaluates [idx + 1] again and raises, so
    the exception leaves the loop: no row is stored or counted, and the
    run raises a [ValidationError] with the database unchanged. *)
Theorem process_csv_implicit_index_aborts :
  forall (float_repr : Q -> string) (sha256_hex : string -> string) (pd : pandas_ops)
         (s0 : state),
    tb_header implicit_index_table <> [] /\ tb_rows implicit_index_table <> [] /\
    materialize_rows float_repr sha256_hex pd
      (infer_column_types float_repr pd (frame_of_table implicit_index_table))
      (frame_of_table implicit_index_table) (index_of_table implicit_index_table)
      (df_len implicit_index_table)
    = Err (TypeError ("can only concatenate str (not " ++ quote ++ "int" ++ quote ++ ") to str")) /\
    exists s1,
      process_csv float_repr sha256_hex pd implicit_index_source s0 =
        (Err (ValidationError ("CSV processing error: can only concatenate str (not "
                               ++ quote ++ "int" ++ quote ++ ") to str")), s1) /\
      st_db s1 = st_db s0.
Proof.
  intros float_repr sha256_hex pd s0.
  split; [discriminate|]. split; [discriminate|]. split; [vm_compute; reflexivity|].
  destruct (process_csv float_repr sha256_hex pd implicit_index_source s0) as [r s1] eqn:H.
  exists s1.
  assert (Hr : r = Err (ValidationError ("CSV processing error: can only concatenate str (not "
                                          ++ quote ++ "int" ++ quote ++ ") to str"))).
  { change r with (fst (r, s1)). rewrite <- H. vm_compute. reflexivity. }
  subst r. split; [reflexivity|]. exact (proj1 (process_csv_err _ _ _ _ _ _ _ H)).
Qed.



(** Claim C3, counterexample: a file with a header and no data row has
    [total_records = len(df) = 0]; the run does not report a quality
    score of 0 but raises a [ValidationError]. *)
Lemma process_csv_zero_rows_raises :
  df_len (mkTable ["speed"; "rpm"] [] []) = 0 /\
  src_table header_only_source = Ok (mkTable ["speed"; "rpm"] [] []) /\
  exists m s1,
    process_csv demo_float_repr demo_digest demo_pandas header_only_source initial_state
      = (Err (ValidationError m), s1).
Proof.
  split; [reflexivity|]. split; [reflexivity|].
  eexists _, _. vm_compute. reflexivity.
Qed.

(** Claim C3, amended: a committed run stores a quality report with
    [total_records >= 1] and returns
    [quality_score = valid_records / total_records * 100] computed from
    it; a file with no data row never reaches the score: the run raises
    a [ValidationError] and leaves the database unchanged. *)
Theorem process_csv_quality_score :
  (forall (float_repr : Q -> string) (sha256_hex : string -> string) (pd : pandas_ops)
          (src : csv_source) (s0 : state) (sm : summary) (s1 : state),
     process_csv float_repr sha256_hex pd src s0 = (Ok sm, s1) ->
     exists r rest,
       db_reports (st_db s1) = r :: rest /\
       (1 <= qr_total_records r)%Z /\
       qr_total_records r = Z.of_nat (sm_total_rows sm) /\
       qr_valid_records r = (qr_total_records r - qr_invalid_records r)%Z /\
       (sm_quality_score sm
        == inject_Z (qr_valid_records r) / inject_Z (qr_total_records r) * inject_Z 100)%Q) /\
  (forall (float_repr : Q -> string) (sha256_hex : string -> string) (pd : pandas_ops)
          (src : csv_source) (s0 : state) (t : table),
     src_table src = Ok t -> tb_rows t = [] ->
     exists m s1,
       process_csv float_repr sha256_hex pd src s0 = (Err (ValidationError m), s1) /\
       st_db s1 = st_db s0).
Proof.
  split.
  - intros fr sh pd src s0 sm s1 H.
    destruct (process_csv_Ok_shape _ _ _ _ _ _ _ H)
      as (t & recs & dup & err & rows & Hsrc & He & Hm & Hp & -> & ->).
    pose proof (df_empty_len t He) as Hn.
    eexists _, _. split; [reflexivity|]. simpl.
    split; [lia|]. split; [reflexivity|]. split; [reflexivity|].
    rewrite Qmake_Qdiv, Z2Pos.id by lia. reflexivity.
  - intros fr sh pd src s0 t Hsrc Hr.
    assert (He : df_empty t = true).
    { unfold df_empty. rewrite Hr. destruct (tb_header t); reflexivity. }
    exists "CSV processing error: ['CSV file contains no data']".
    eexists. split.
    + run_process Hsrc. rewrite He. reflexivity.
    + reflexivity.
Qed.

Lemma process_csv_quality_score_witness :
  (exists r rest,
     db_reports (st_db (snd (process_csv demo_float_repr demo_digest demo_pandas scenario_source
                               initial_state)))
       = r :: rest /\ (1 <= qr_total_records r)%Z) /\
  (exists m s1,
     process_csv demo_float_repr demo_digest demo_pandas header_only_source initial_state
       = (Err (ValidationError m), s1) /\ st_db s1 = st_db initial_state).
Proof.
  split.
  - destruct (process_csv demo_float_repr demo_digest demo_pandas scenario_source initial_state)
      as [[sm|e] s1] eqn:H.
    + destruct (proj1 process_csv_quality_score _ _ _ _ _ _ _ H)
        as (r & rest & Hr & Ht & _).
      exists r, rest. split; assumption.
    + vm_compute in H. discriminate.
  - apply (proj2 process_csv_quality_score demo_float_repr demo_digest demo_pandas
             header_only_source initial_state (mkTable ["speed"; "rpm"] [] [])); reflexivity.
Defined.

(** Claim C7: [detect_encoding] always returns (never raises); it returns
    the detected encoding of the first 10000 bytes when the confidence is
    strictly above 0.7, and UTF-8 when the confidence is lower or when
    opening the file or the detection fails. *)
Theorem detect_encoding_total :
  forall (chardet_detect : list Byte.byte -> result detection)
         (file : result (list Byte.byte)),
    detect_encoding chardet_detect file =
    Ok (match file with
        | Err _ => Some "utf-8"
        | Ok content =>
            match chardet_detect (firstn 10000 content) with
            | Err _ => Some "utf-8"
            | Ok r => if Qltb (7 # 10) (det_confidence r) then det_encoding r
                      else Some "utf-8"
            end
        end).
Proof.
  intros chardet_detect [content|e]; [|reflexivity].
  unfold detect_encoding, detect_encoding_body, bind.
  destruct (chardet_detect (firstn 10000 content)); reflexivity.
Qed.

(** ** Validation *)

Lemma check_rules_cons :
  forall fr fos compiled rc rme record_data rule rest errs,
    check_rules fr fos compiled rc rme record_data (rule :: rest) errs =
    match getattr_validator fr fos compiled rc rme
            ("validate_" ++ str_lower (rule_kind_name (rule_type rule))) with
    | Some m =>
        bind (m (config_get (rule_column_name rule) record_data) (rule_config rule))
          (fun ok => check_rules fr fos compiled rc rme record_data rest
                       (if ok then errs else (errs ++ [failure_message rule])%list))
    | None => check_rules fr fos compiled rc rme record_data rest errs
    end.
Proof. reflexivity. Qed.

Lemma check_rules_app_errors :
  forall fr fos compiled rc rme record_data rules errs,
    (forall rule m, In rule rules ->
       getattr_validator fr fos compiled rc rme
         ("validate_" ++ str_lower (rule_kind_name (rule_type rule))) = Some m ->
       exists b, m (config_get (rule_column_name rule) record_data) (rule_config rule) = Ok b) ->
    check_rules fr fos compiled rc rme record_data rules errs =
    Ok (errs ++ map failure_message (filter (rule_fails fr fos rc rme record_data) rules))%list.
Proof.
  intros fr fos compiled rc rme record_data rules.
  induction rules as [|rule rest IH]; intros errs Hok.
  - simpl. rewrite app_nil_r. reflexivity.
  - assert (Hrest : forall r m', In r rest ->
              getattr_validator fr fos compiled rc rme
                ("validate_" ++ str_lower (rule_kind_name (rule_type r))) = Some m' ->
              exists b, m' (config_get (rule_column_name r) record_data) (rule_config r) = Ok b)
      by (intros r m' Hin; apply Hok; right; exact Hin).
    rewrite check_rules_cons. cbn [filter].
    destruct (getattr_validator fr fos compiled rc rme
                ("validate_" ++ str_lower (rule_kind_name (rule_type rule)))) as [m|] eqn:Hg.
    + destruct (Hok rule m (or_introl eq_refl) Hg) as [b Hb]. rewrite Hb. cbn [bind].
      assert (Hf : rule_fails fr fos rc rme record_data rule = negb b)
        by (unfold rule_fails; rewrite Hg, Hb; destruct b; reflexivity).
      rewrite Hf, (IH _ Hrest).
      destruct b; cbn [negb]; [reflexivity|].
      cbn [map]. rewrite <- app_assoc. reflexivity.
    + assert (Hf : rule_fails fr fos rc rme record_data rule = false)
        by (unfold rule_fails; rewrite Hg; reflexivity).
      rewrite Hf. exact (IH _ Hrest).
Qed.

(** When no validator raises, [validate_record] collects one message per
    failing active rule, in rule order, and passes exactly when none
    fails. *)
Lemma validate_record_collects :
  forall fr fos compiled rc rme record_data rules,
    (forall rule m, In rule rules -> rule_is_active rule = true ->
       getattr_validator fr fos compiled rc rme
         ("validate_" ++ str_lower (rule_kind_name (rule_type rule))) = Some m ->
       exists b, m (config_get (rule_column_name rule) record_data) (rule_config rule) = Ok b) ->
    let failing := filter (rule_fails fr fos rc rme record_data) (filter rule_is_active rules) in
    validate_record fr fos compiled rc rme record_data rules =
      Ok (Nat.eqb (length failing) 0, map failure_message failing) /\
    (Nat.eqb (length failing) 0 = true <->
     forall rule, In rule rules -> rule_is_active rule = true ->
                  rule_fails fr fos rc rme record_data rule = false).
Proof.
  intros fr fos compiled rc rme record_data rules Hok failing.
  unfold validate_record.
  rewrite check_rules_app_errors.
  - simpl. rewrite length_map. split; [reflexivity|].
    rewrite Nat.eqb_eq, length_zero_iff_nil. unfold failing. split.
    + intros Hnil rule Hin Ha.
      destruct (rule_fails fr fos rc rme record_data rule) eqn:Hf; [|reflexivity].
      assert (Hin' : In rule (filter (rule_fails fr fos rc rme record_data)
                                 (filter rule_is_active rules))).
      { apply filter_In. split; [apply filter_In; auto|exact Hf]. }
      rewrite Hnil in Hin'. destruct Hin'.
    + intros Hall. destruct (filter _ _) as [|r l] eqn:Hl; [reflexivity|].
      assert (Hin : In r (r :: l)) by (left; reflexivity).
      rewrite <- Hl in Hin. apply filter_In in Hin as [Hin Hf].
      apply filter_In in Hin as [Hin Ha].
      rewrite (Hall r Hin Ha) in Hf. discriminate.
  - intros rule m Hin Hg. apply filter_In in Hin as [Hin Ha].
    exact (Hok rule m Hin Ha Hg).
Qed.

(** [validate_range]: a missing bound leaves its side unconstrained, a
    value [float()] rejects with [ValueError] or [TypeError] fails the
    rule, and an [OverflowError] escapes. *)
Lemma validate_range_cases :
  forall fos value config,
    (forall x, to_float fos value = Ok x ->
       config_get "min" config = PNone -> config_get "max" config = PNone ->
       validate_range fos value config = Ok true) /\
    (forall x b, to_float fos value = Ok x ->
       config_get "max" config = PNone -> bound_value (config_get "min" config) = Some b ->
       validate_range fos value config = Ok (negb (pyfloat_lt x b))) /\
    (forall m, (to_float fos value = Err (ValueError m) \/ to_float fos value = Err (TypeError m)) ->
       validate_range fos value config = Ok false) /\
    (forall m, to_float fos value = Err (OverflowError m) ->
       validate_range fos value config = Err (OverflowError m)).
Proof.
  intros fos value config. unfold validate_range, compare_bound.
  split; [|split; [|split]].
  - intros x Hx Hmin Hmax. rewrite Hx, Hmin, Hmax. reflexivity.
  - intros x b Hx Hmax Hb. rewrite Hx, Hmax. simpl.
    destruct (config_get "min" config); simpl in Hb |- *; try discriminate;
      injection Hb as <-; destruct (pyfloat_lt x _); reflexivity.
  - intros m [Hx|Hx]; rewrite Hx; reflexivity.
  - intros m Hx. rewrite Hx. reflexivity.
Qed.

(** Claim C8 (code bug): a RANGE rule on a value that [float()] cannot
    convert makes the rule fail only for [ValueError] and [TypeError];
    an int too large for a float, such as [10 ** 400], raises
    [OverflowError] out of [validate_record] instead of producing a
    failed rule. *)
Theorem validate_record_range_overflow :
  forall (float_repr : Q -> string) (float_of_str : string -> option pyfloat)
         (compiled : Type) (re_compile : string -> result compiled)
         (re_match_end : compiled -> string -> nat -> bool),
    validate_record float_repr float_of_str compiled re_compile re_match_end
      [("x", PInt (10 ^ 400))] [mkRule "x" RANGE [] true]
    = Err (OverflowError "int too large to convert to float").
Proof.
  intros. vm_compute. reflexivity.
Qed.

Lemma check_rules_skip :
  forall fr fos compiled rc rme record_data l1 l2 rule errs,
    getattr_validator fr fos compiled rc rme
      ("validate_" ++ str_lower (rule_kind_name (rule_type rule))) = None ->
    check_rules fr fos compiled rc rme record_data (l1 ++ rule :: l2) errs =
    check_rules fr fos compiled rc rme record_data (l1 ++ l2) errs.
Proof.
  intros fr fos compiled rc rme record_data l1 l2 rule errs Hg.
  revert errs. induction l1 as [|r l1 IH]; intros errs.
  - cbn [app]. rewrite check_rules_cons, Hg. reflexivity.
  - cbn [app]. rewrite !check_rules_cons.
    destruct (getattr_validator fr fos compiled rc rme
                ("validate_" ++ str_lower (rule_kind_name (rule_type r)))) as [m|];
      [|apply IH].
    destruct (m _ _) as [b|e]; cbn [bind]; [apply IH|reflexivity].
Qed.

(** Claim C9: a rule of type UNIQUE or CUSTOM, which has no validator
    method, can be inserted anywhere in the dataset's rules, active or
    not, without changing the result of [validate_record]. *)
Theorem validate_record_skips_unimplemented :
  forall (float_repr : Q -> string) (float_of_str : string -> option pyfloat)
         (compiled : Type) (re_compile : string -> result compiled)
         (re_match_end : compiled -> string -> nat -> bool)
         (record_data : pydict) (rules1 rules2 : list validation_rule)
         (rule : validation_rule),
    rule_type rule = UNIQUE \/ rule_type rule = CUSTOM ->
    validate_record float_repr float_of_str compiled re_compile re_match_end
      record_data (rules1 ++ rule :: rules2)
    = validate_record float_repr float_of_str compiled re_compile re_match_end
        record_data (rules1 ++ rules2).
Proof.
  intros fr fos compiled rc rme record_data rules1 rules2 rule Ht.
  unfold validate_record. rewrite !filter_app. simpl.
  destruct (rule_is_active rule); [|reflexivity].
  rewrite check_rules_skip; [reflexivity|].
  destruct Ht as [-> | ->]; reflexivity.
Qed.

Lemma validate_record_skips_unimplemented_witness :
  validate_record demo_float_repr no_float string literal_compile literal_match_end
    [("x", PInt 5)] ([mkRule "x" RANGE [("min", PInt 0)] true] ++
                     mkRule "x" UNIQUE [] true :: [mkRule "x" NOT_NULL [] true])
  = validate_record demo_float_repr no_float string literal_compile literal_match_end
      [("x", PInt 5)] ([mkRule "x" RANGE [("min", PInt 0)] true] ++
                       [mkRule "x" NOT_NULL [] true]).
Proof.
  apply (validate_record_skips_unimplemented demo_float_repr no_float string
           literal_compile literal_match_end).
  left. reflexivity.
Defined.

(** Claim C10: [validate_pattern] passes every value when the config has
    no truthy ["pattern"]; with a string pattern that compiles, it passes
    exactly when the pattern matches a prefix of [str(value)] (a match
    from position 0 ending at any position, not necessarily at the end);
    a pattern that does not compile fails every value. *)
Theorem validate_pattern_anchored_prefix :
  forall (float_repr : Q -> string) (compiled : Type)
         (re_compile : string -> result compiled)
         (re_match_end : compiled -> string -> nat -> bool)
         (value : pyval) (config : pydict),
    (truthy (config_get "pattern" config) = false ->
     validate_pattern float_repr compiled re_compile re_match_end value config = Ok true) /\
    (forall p c, config_get "pattern" config = PStr p -> p <> EmptyString ->
     re_compile p = Ok c ->
     (validate_pattern float_repr compiled re_compile re_match_end value config = Ok true <->
      exists k, k <= String.length (py_str float_repr value) /\
                re_match_end c (py_str float_repr value) k = true)) /\
    (forall p e, config_get "pattern" config = PStr p -> p <> EmptyString ->
     re_compile p = Err e ->
     validate_pattern float_repr compiled re_compile re_match_end value config = Ok false).
Proof.
  intros fr compiled rc rme value config. unfold validate_pattern.
  split; [|split].
  - intros Ht. rewrite Ht. reflexivity.
  - intros p c Hp Hne Hc. rewrite Hp. cbn [truthy].
    apply String.eqb_neq in Hne. rewrite Hne. cbn [negb].
    unfold re_match. rewrite Hc. cbn [bind].
    set (b := existsb (rme c (py_str fr value)) (seq 0 (S (String.length (py_str fr value))))).
    assert (Hb : b = true <-> exists k, k <= String.length (py_str fr value) /\
                                        rme c (py_str fr value) k = true).
    { unfold b. rewrite existsb_exists. split.
      - intros [k [Hk Hm]]. apply in_seq in Hk. exists k. split; [lia|exact Hm].
      - intros [k [Hk Hm]]. exists k. split; [apply in_seq; lia|exact Hm]. }
    rewrite <- Hb. split; [congruence|intros ->; reflexivity].
  - intros p e Hp Hne He. rewrite Hp. cbn [truthy].
    apply String.eqb_neq in Hne. rewrite Hne. cbn [negb].
    unfold re_match. rewrite He. reflexivity.
Qed.

Lemma validate_pattern_anchored_prefix_witness :
  validate_pattern demo_float_repr string literal_compile literal_match_end
    (PStr "abc") [] = Ok true /\
  (validate_pattern demo_float_repr string literal_compile literal_match_end
     (PStr "abc") [("pattern", PStr "ab")] = Ok true <->
   exists k, k <= String.length (py_str demo_float_repr (PStr "abc")) /\
             literal_match_end "ab" (py_str demo_float_repr (PStr "abc")) k = true).
Proof.
  split.
  - apply (proj1 (validate_pattern_anchored_prefix demo_float_repr string literal_compile
                    literal_match_end (PStr "abc") [])).
    reflexivity.
  - apply (proj1 (proj2 (validate_pattern_anchored_prefix demo_float_repr string
                           literal_compile literal_match_end (PStr "abc")
                           [("pattern", PStr "ab")])) "ab" "ab");
      [reflexivity|discriminate|reflexivity].
Defined.

Lemma validate_record_collects_witness :
  let failing := filter (rule_fails demo_float_repr no_float literal_compile literal_match_end
                           [("x", PInt 5)])
                        (filter rule_is_active
                           [mkRule "x" RANGE [("min", PInt 10)] true;
                            mkRule "x" NOT_NULL [] true;
                            mkRule "y" NOT_NULL [] true]) in
  validate_record demo_float_repr no_float string literal_compile literal_match_end
    [("x", PInt 5)]
    [mkRule "x" RANGE [("min", PInt 10)] true;
     mkRule "x" NOT_NULL [] true;
     mkRule "y" NOT_NULL [] true] =
    Ok (Nat.eqb (length failing) 0, map failure_message failing) /\
  (Nat.eqb (length failing) 0 = true <->
   forall rule, In rule [mkRule "x" RANGE [("min", PInt 10)] true;
                         mkRule "x" NOT_NULL [] true;
                         mkRule "y" NOT_NULL [] true] ->
                rule_is_active rule = true ->
                rule_fails demo_float_repr no_float literal_compile literal_match_end
                  [("x", PInt 5)] rule = false).
Proof.
  apply (validate_record_collects demo_float_repr no_float string literal_compile
           literal_match_end).
  intros rule m Hin Ha Hg.
  destruct Hin as [<- | [<- | [<- | []]]]; injection Hg as <-; eexists; reflexivity.
Defined.

Lemma validate_range_cases_witness :
  validate_range no_float (PInt 5) [] = Ok true /\
  validate_range no_float (PStr "abc") [("max", PInt 3)] = Ok false.
Proof.
  split.
  - apply (proj1 (validate_range_cases no_float (PInt 5) []) (Fin (inject_Z 5)));
      reflexivity.
  - apply (proj1 (proj2 (proj2 (validate_range_cases no_float (PStr "abc") [("max", PInt 3)])))
             "could not convert string to float").
    left. reflexivity.
Defined.

(** ** [detect_delimiter] *)

Lemma max_by_count_spec : forall l b,
  let r := max_by_count b l in
  In r (b :: l) /\
  (forall x, In x (b :: l) -> snd x <= snd r) /\
  exists pre post, b :: l = (pre ++ r :: post)%list /\ forall x, In x pre -> snd x < snd r.
Proof.
  induction l as [|x l IH]; intros b; simpl.
  - split; [left; reflexivity|]. split.
    + intros y [<-|[]]. lia.
    + exists [], []. split; [reflexivity|]. intros y [].
  - destruct (Nat.ltb_spec (snd b) (snd x)) as [Hlt|Hge].
    + destruct (IH x) as (Hin & Hmax & pre & post & Heq & Hpre).
      split; [right; exact Hin|]. split.
      * intros y [<-|Hy]; [|apply Hmax; exact Hy].
        specialize (Hmax x (or_introl eq_refl)). lia.
      * exists (b :: pre), post. split; [rewrite Heq; reflexivity|].
        intros y [<-|Hy]; [|apply Hpre; exact Hy].
        specialize (Hmax x (or_introl eq_refl)). lia.
    + destruct (IH b) as (Hin & Hmax & pre & post & Heq & Hpre).
      split; [destruct Hin as [Hin|Hin]; [left; exact Hin|right; right; exact Hin]|].
      split.
      * intros y [<-|[<-|Hy]].
        -- apply Hmax; left; reflexivity.
        -- specialize (Hmax b (or_introl eq_refl)). lia.
        -- apply Hmax; right; exact Hy.
      * destruct pre as [|p pre].
        -- simpl in Heq. injection Heq as Hb Hl. subst l.
           exists [], (x :: post). split; [simpl; rewrite <- Hb; reflexivity|]. intros y [].
        -- simpl in Heq. injection Heq as Hb Hl. subst p.
           exists (b :: x :: pre), post. split; [simpl; do 2 f_equal; exact Hl|].
           intros y [<-|[<-|Hy]].
           ++ apply Hpre; left; reflexivity.
           ++ specialize (Hpre b (or_introl eq_refl)). lia.
           ++ apply Hpre; right; exact Hy.
Qed.

(** [detect_delimiter] returns [','] when the file cannot be read or its
    first line holds none of [, ; \t |]; otherwise it returns a candidate
    that occurs in the first line at least as often as every other
    candidate and strictly more often than every candidate listed before
    it (ties go to the earlier one in [, ; \t |]). *)
Theorem detect_delimiter_most_frequent :
  (forall e, detect_delimiter (Err e) = ","%char) /\
  (forall text,
    let line := readline text in
    let d := detect_delimiter (Ok text) in
    (d = ","%char /\ forall x, In x delimiters -> count_char x line = 0) \/
    (0 < count_char d line /\
     (forall x, In x delimiters -> count_char x line <= count_char d line) /\
     exists pre post, delimiters = (pre ++ d :: post)%list /\
                      forall x, In x pre -> count_char x line < count_char d line)).
Proof.
  split; [reflexivity|].
  intros text line d. unfold d, detect_delimiter. fold line.
  destruct (delimiter_counts line) as [|first rest] eqn:Hc; [discriminate|].
  destruct (max_by_count_spec rest first) as (Hin & Hmax & pre & post & Heq & Hpre).
  destruct (max_by_count first rest) as [best n] eqn:Hb.
  assert (Hpair : forall y, In y (first :: rest) -> snd y = count_char (fst y) line).
  { intros y Hy. rewrite <- Hc in Hy. unfold delimiter_counts in Hy.
    apply in_map_iff in Hy as (x & <- & _). reflexivity. }
  assert (Hn : n = count_char best line) by (apply (Hpair (best, n) Hin)).
  assert (Hall : forall x, In x delimiters -> count_char x line <= n).
  { intros x Hx. apply (Hmax (x, count_char x line)). rewrite <- Hc.
    unfold delimiter_counts. apply in_map_iff. exists x. split; [reflexivity|exact Hx]. }
  destruct (Nat.ltb_spec 0 n) as [Hpos|Hz].
  - right. rewrite <- Hn. split; [exact Hpos|]. split; [exact Hall|].
    rewrite <- Hc in Heq. unfold delimiter_counts in Heq.
    apply map_eq_app in Heq as (pre0 & rest0 & -> & Hpre0 & Hrest0).
    apply map_eq_cons in Hrest0 as (b0 & post0 & -> & Hb0 & Hpost0).
    injection Hb0 as Hb0 _. subst b0.
    exists pre0, post0. split; [reflexivity|].
    intros x Hx. apply (Hpre (x, count_char x line)). rewrite <- Hpre0.
    apply in_map_iff. exists x. split; [reflexivity|exact Hx].
  - left. split; [reflexivity|]. intros x Hx. specialize (Hall x Hx). lia.
Qed.

(** ** Committed runs of [process_csv] *)

Lemma frame_names_gen : forall rows h k,
  map col_name
    (map (fun '(i, name) => read_csv_column name (map (fun r => nth i r None) rows))
         (combine (seq k (length h)) h)) = h.
Proof.
  intros rows h. induction h as [|a h IH]; intros k; simpl; [reflexivity|].
  f_equal. apply IH.
Qed.

Lemma frame_names : forall t, map col_name (frame_of_table t) = tb_header t.
Proof. intros t. apply frame_names_gen. Qed.

Lemma frame_in : forall t c, In c (frame_of_table t) ->
  exists i name, c = read_csv_column name (map (fun r => nth i r None) (tb_rows t)) /\
                 i < length (tb_header t).
Proof.
  intros t c H. unfold frame_of_table in H.
  apply in_map_iff in H as ([i name] & <- & Hin).
  exists i, name. split; [reflexivity|].
  apply in_combine_l, in_seq in Hin. lia.
Qed.

Lemma frame_col_len : forall t c, In c (frame_of_table t) -> length (col_elems c) = df_len t.
Proof.
  intros t c H. destruct (frame_in t c H) as (i & name & -> & _).
  simpl. rewrite !length_map. reflexivity.
Qed.

Lemma infer_column_types_names : forall fr pd df,
  map fst (infer_column_types fr pd df) = map col_name df.
Proof. intros fr pd df. unfold infer_column_types. rewrite map_map. reflexivity. Qed.

Lemma index_of_table_default : forall t, tb_index t = [] -> index_of_table t = [].
Proof. intros t H. unfold index_of_table. rewrite H. reflexivity. Qed.

(** For a file read with the default index, a committed run stores
    exactly the rows that could be serialized and hashed, in file order,
    each with [row_number] = its 0-based position in the file + 1;
    [dataset.total_rows] and [processed_rows] are the number of stored
    records. *)
Theorem process_csv_commit_records :
  forall fr sh pd src s0 sm s1 t,
    src_table src = Ok t -> tb_index t = [] ->
    process_csv fr sh pd src s0 = (Ok sm, s1) ->
    map rec_row_number (db_records (st_db s1)) =
      map (fun i => Z.of_nat i + 1)%Z
        (filter (fun i => is_ok (process_row fr sh pd (infer_column_types fr pd (frame_of_table t))
                                   (frame_of_table t) [] i))
                (seq 0 (length (tb_rows t)))) /\
    db_total_rows (st_db s1) = sm_processed_rows sm /\
    length (db_records (st_db s1)) = sm_processed_rows sm.
Proof.
  intros fr sh pd src s0 sm s1 t Hsrc Hix H.
  destruct (process_csv_Ok_shape _ _ _ _ _ _ _ H)
    as (t' & recs & dup & err & rows & Hsrc' & He & Hm & Hp & -> & ->).
  rewrite Hsrc in Hsrc'. injection Hsrc' as <-.
  rewrite (index_of_table_default t Hix) in Hm.
  destruct (range_rows_stored fr sh pd (infer_column_types fr pd (frame_of_table t))
              (frame_of_table t) (df_len t)) as (recs' & err' & rows' & Hm' & Hp' & Hz & _).
  rewrite Hm in Hm'. injection Hm' as Hr _ _. subst recs'.
  rewrite Hp in Hp'. injection Hp' as Hr'. subst rows'.
  simpl. split; [exact Hz|]. split; [reflexivity|]. apply prep_records_length. exact Hp.
Qed.

Lemma process_csv_commit_records_witness :
  exists sm s1,
    process_csv demo_float_repr demo_digest demo_pandas scenario_source initial_state
      = (Ok sm, s1) /\
    map rec_row_number (db_records (st_db s1)) =
      map (fun i => Z.of_nat i + 1)%Z
        (filter (fun i => is_ok (process_row demo_float_repr demo_digest demo_pandas
                                   (infer_column_types demo_float_repr demo_pandas
                                      (frame_of_table scenario_table))
                                   (frame_of_table scenario_table) [] i))
                (seq 0 (length (tb_rows scenario_table)))) /\
    db_total_rows (st_db s1) = sm_processed_rows sm.
Proof.
  destruct (process_csv demo_float_repr demo_digest demo_pandas scenario_source initial_state)
    as [[sm|e] s1] eqn:H; [|vm_compute in H; discriminate].
  destruct (process_csv_commit_records _ _ _ scenario_source _ _ _ scenario_table eq_refl eq_refl H)
    as (Hn & Hr & _).
  exists sm, s1. repeat split; assumption.
Defined.

(** A committed run adds one quality report in front of the reports
    already stored, with [total_records] the rows of the file,
    [valid_records] the rows stored, [invalid_records] the rows that
    failed and [duplicate_records] 0; the summary carries the same
    numbers. *)
Theorem process_csv_commit_report :
  forall fr sh pd src s0 sm s1,
    process_csv fr sh pd src s0 = (Ok sm, s1) ->
    exists r,
      db_reports (st_db s1) = r :: db_reports (st_db s0) /\
      qr_total_records r = Z.of_nat (sm_total_rows sm) /\
      qr_valid_records r = Z.of_nat (sm_processed_rows sm) /\
      qr_invalid_records r = Z.of_nat (sm_error_rows sm) /\
      qr_duplicate_records r = 0%Z /\
      sm_duplicate_rows sm = 0.
Proof.
  intros fr sh pd src s0 sm s1 H.
  destruct (process_csv_Ok_shape _ _ _ _ _ _ _ H)
    as (t & recs & dup & err & rows & Hsrc & He & Hm & Hp & -> & ->).
  destruct (materialize_rows_counts _ _ _ _ _ _ _ _ _ _ Hm) as [Hc Hd]. subst dup.
  eexists. simpl. split; [reflexivity|].
  split; [reflexivity|]. split; [cbn; lia|].
  split; [reflexivity|]. split; reflexivity.
Qed.

Lemma process_csv_commit_report_witness :
  exists sm s1 r,
    process_csv demo_float_repr demo_digest demo_pandas scenario_source initial_state
      = (Ok sm, s1) /\
    db_reports (st_db s1) = r :: db_reports (st_db initial_state) /\
    qr_valid_records r = Z.of_nat (sm_processed_rows sm) /\
    qr_invalid_records r = Z.of_nat (sm_error_rows sm).
Proof.
  destruct (process_csv demo_float_repr demo_digest demo_pandas scenario_source initial_state)
    as [[sm|e] s1] eqn:H; [|vm_compute in H; discriminate].
  destruct (process_csv_commit_report _ _ _ _ _ _ _ H) as (r & H1 & _ & H2 & H3 & _).
  exists sm, s1, r. repeat split; assumption.
Defined.

(** A committed run saves the raw file with [processed = True] and the
    encoding and delimiter it used, and keeps the [processing_error]
    the object already held: a successful re-run does not clear the
    error message of an earlier failed run. *)
Theorem process_csv_commit_raw_file :
  forall fr sh pd src s0 sm s1,
    process_csv fr sh pd src s0 = (Ok sm, s1) ->
    db_raw_file (st_db s1) = mkRawFile true (src_encoding src) (src_delimiter src)
                               (rf_processing_error (st_raw_file s0)) /\
    st_raw_file s1 = db_raw_file (st_db s1).
Proof.
  intros fr sh pd src s0 sm s1 H.
  destruct (process_csv_Ok_shape _ _ _ _ _ _ _ H)
    as (t & recs & dup & err & rows & Hsrc & He & Hm & Hp & -> & ->).
  split; reflexivity.
Qed.

Lemma process_csv_commit_raw_file_witness :
  db_raw_file (st_db (snd (process_csv demo_float_repr demo_digest demo_pandas scenario_source
                             (mkState (st_db initial_state)
                                (mkRawFile false "utf-8" "," "earlier error")))))
    = mkRawFile true "ascii" "," "earlier error".
Proof.
  destruct (process_csv demo_float_repr demo_digest demo_pandas scenario_source
              (mkState (st_db initial_state) (mkRawFile false "utf-8" "," "earlier error")))
    as [[sm|e] s1] eqn:H.
  - exact (proj1 (process_csv_commit_raw_file _ _ _ _ _ _ _ H)).
  - vm_compute in H. discriminate.
Defined.



Lemma find_name_unique : forall df c,
  NoDup (map col_name df) -> In c df ->
  find (fun c' => String.eqb (col_name c') (col_name c)) df = Some c.
Proof.
  induction df as [|c' df IH]; intros c Hnd Hin; [destruct Hin|].
  simpl in Hnd. inversion Hnd as [|x l Hnotin Hnd']; subst.
  simpl. destruct (String.eqb_spec (col_name c') (col_name c)) as [Heq|Hne].
  - destruct Hin as [->|Hin]; [reflexivity|].
    exfalso. apply Hnotin. rewrite Heq. apply in_map. exact Hin.
  - destruct Hin as [->|Hin]; [contradiction|]. apply IH; assumption.
Qed.

Lemma schema_rows_length : forall df types idx,
  length (schema_rows df types idx) = length types.
Proof.
  intros df types. induction types as [|[k ty] types IH]; intros idx; simpl; [reflexivity|].
  f_equal. apply IH.
Qed.

Lemma schema_rows_nth : forall fr pd df cs idx i,
  NoDup (map col_name df) -> (forall c, In c cs -> In c df) ->
  nth_error (schema_rows df (infer_column_types fr pd cs) idx) i =
  option_map (fun c =>
                let ty := infer_column_type fr pd c in
                let st := calculate_statistics c ty in
                mkSchemaRow (col_name c) ty (idx + i) (stat_min st) (stat_max st) (stat_unique st))
             (nth_error cs i).
Proof.
  intros fr pd df cs. induction cs as [|c cs IH]; intros idx i Hnd Hin.
  - destruct i; reflexivity.
  - simpl. rewrite find_name_unique by (try assumption; apply Hin; left; reflexivity).
    destruct i as [|i]; simpl.
    + rewrite Nat.add_0_r. reflexivity.
    + rewrite IH by (try assumption; intros c' H'; apply Hin; right; exact H').
      replace (S idx + i) with (idx + S i) by lia. reflexivity.
Qed.

(** For a file with distinct column names, a committed run replaces the
    schema by one row per column, in file order: row [i] names column
    [i], gives its inferred type, [column_order = i], and the min, max
    and unique count computed by [calculate_statistics]; the summary
    lists the columns of the file in order. *)
Theorem process_csv_commit_schema :
  forall fr sh pd src s0 sm s1 t,
    src_table src = Ok t -> NoDup (tb_header t) ->
    process_csv fr sh pd src s0 = (Ok sm, s1) ->
    sm_columns sm = tb_header t /\
    length (db_schema (st_db s1)) = length (tb_header t) /\
    forall i c, nth_error (frame_of_table t) i = Some c ->
      let ty := infer_column_type fr pd c in
      let st := calculate_statistics c ty in
      nth_error (db_schema (st_db s1)) i =
        Some (mkSchemaRow (col_name c) ty i (stat_min st) (stat_max st) (stat_unique st)).
Proof.
  intros fr sh pd src s0 sm s1 t Hsrc Hnd H.
  destruct (process_csv_Ok_shape _ _ _ _ _ _ _ H)
    as (t' & recs & dup & err & rows & Hsrc' & He & Hm & Hp & -> & ->).
  rewrite Hsrc in Hsrc'. injection Hsrc' as <-.
  simpl. split; [rewrite infer_column_types_names; apply frame_names|].
  split.
  - rewrite schema_rows_length. unfold infer_column_types. rewrite length_map.
    rewrite <- (frame_names t), length_map. reflexivity.
  - intros i c Hi. cbv zeta.
    rewrite schema_rows_nth; [rewrite Hi; reflexivity| |intros c' Hc'; exact Hc'].
    rewrite frame_names. exact Hnd.
Qed.

Lemma process_csv_commit_schema_witness :
  exists sm s1,
    process_csv demo_float_repr demo_digest demo_pandas scenario_source initial_state
      = (Ok sm, s1) /\
    sm_columns sm = tb_header scenario_table /\
    length (db_schema (st_db s1)) = length (tb_header scenario_table).
Proof.
  destruct (process_csv demo_float_repr demo_digest demo_pandas scenario_source initial_state)
    as [[sm|e] s1] eqn:H; [|vm_compute in H; discriminate].
  assert (Hnd : NoDup (tb_header scenario_table)).
  { simpl. constructor; [simpl; intros [Hx|[]]; discriminate|].
    constructor; [intros []|constructor]. }
  destruct (process_csv_commit_schema _ _ _ scenario_source _ _ _ scenario_table eq_refl Hnd H)
    as (H1 & H2 & _).
  exists sm, s1. repeat split; assumption.
Defined.

Lemma pos_of_nat_Z : forall n, 1 <= n -> Zpos (Pos.of_nat n) = Z.of_nat n.
Proof.
  intros n Hn. rewrite <- positive_nat_Z, Nat2Pos.id by lia. reflexivity.
Qed.

Lemma completeness_facts : forall n k, 1 <= n -> k <= n ->
  let q := Qmult (Qmake (Z.of_nat (n - k)) (Pos.of_nat n)) (inject_Z 100) in
  (0 <= q /\ q <= 100)%Q /\ (q == 100 <-> k = 0%nat)%Q /\
  (q == inject_Z (Z.of_nat (n - k)) / inject_Z (Z.of_nat n) * inject_Z 100)%Q.
Proof.
  intros n k Hn Hk q. unfold q.
  pose proof (pos_of_nat_Z n Hn) as Hp.
  rewrite Nat2Z.inj_sub by exact Hk.
  split; [|split].
  - unfold Qle, Qmult, inject_Z; cbn [Qnum Qden]. rewrite !Pos2Z.inj_mul, Hp. split; nia.
  - unfold Qeq, Qmult, inject_Z; cbn [Qnum Qden]. rewrite !Pos2Z.inj_mul, Hp. split; intros H; nia.
  - rewrite Qmake_Qdiv, Hp. reflexivity.
Qed.

(** The quality report of a committed run has one entry per column, in
    file order; each entry's null count is at most the number of rows,
    and its completeness is [(rows - nulls) / rows * 100], between 0 and
    100, and equal to 100 exactly when the column has no missing cell. *)
Theorem process_csv_commit_column_quality :
  forall fr sh pd src s0 sm s1,
    process_csv fr sh pd src s0 = (Ok sm, s1) ->
    exists r,
      db_reports (st_db s1) = r :: db_reports (st_db s0) /\
      map cq_column (qr_column_quality r) = sm_columns sm /\
      forall cq, In cq (qr_column_quality r) ->
        cq_null_count cq <= sm_total_rows sm /\
        (0 <= cq_completeness_percentage cq /\ cq_completeness_percentage cq <= 100)%Q /\
        (cq_completeness_percentage cq == 100 <-> cq_null_count cq = 0%nat)%Q /\
        (cq_completeness_percentage cq ==
           inject_Z (Z.of_nat (sm_total_rows sm - cq_null_count cq))
           / inject_Z (Z.of_nat (sm_total_rows sm)) * inject_Z 100)%Q.
Proof.
  intros fr sh pd src s0 sm s1 H.
  destruct (process_csv_Ok_shape _ _ _ _ _ _ _ H)
    as (t & recs & dup & err & rows & Hsrc & He & Hm & Hp & -> & ->).
  eexists. simpl. split; [reflexivity|]. split.
  - cbn [qr_column_quality]. rewrite map_map, infer_column_types_names. reflexivity.
  - intros cq Hcq. cbn [qr_column_quality sm_total_rows] in *.
    apply in_map_iff in Hcq as (c & <- & Hc).
    pose proof (frame_col_len t c Hc) as Hlen.
    pose proof (df_empty_len t He) as Hn.
    unfold column_quality_of; simpl. rewrite Hlen.
    assert (Hd : length (dropna (col_elems c)) <= df_len t)
      by (rewrite <- Hlen; apply filter_length_le).
    destruct (completeness_facts (df_len t) (df_len t - length (dropna (col_elems c))))
      as (Hb & Hi & Hf); [lia|lia|].
    split; [lia|]. split; [exact Hb|]. split; [exact Hi|exact Hf].
Qed.

Lemma process_csv_commit_column_quality_witness :
  exists sm s1 r,
    process_csv demo_float_repr demo_digest demo_pandas scenario_source initial_state
      = (Ok sm, s1) /\
    db_reports (st_db s1) = r :: db_reports (st_db initial_state) /\
    map cq_column (qr_column_quality r) = sm_columns sm.
Proof.
  destruct (process_csv demo_float_repr demo_digest demo_pandas scenario_source initial_state)
    as [[sm|e] s1] eqn:H; [|vm_compute in H; discriminate].
  destruct (process_csv_commit_column_quality _ _ _ _ _ _ _ H) as (r & H1 & H2 & _).
  exists sm, s1, r. repeat split; assumption.
Defined.

(** ** Serialization of a row *)

Lemma insert_item_Permutation : forall kv d, Permutation (kv :: d) (insert_item kv d).
Proof.
  intros kv d. induction d as [|kv' d IH]; simpl; [reflexivity|].
  destruct (String.leb (fst kv) (fst kv')); [reflexivity|].
  rewrite perm_swap. apply perm_skip. exact IH.
Qed.

Lemma sort_items_Permutation : forall d, Permutation d (sort_items d).
Proof.
  induction d as [|kv d IH]; simpl; [reflexivity|].
  rewrite <- insert_item_Permutation. apply perm_skip. exact IH.
Qed.

Lemma json_value_ok : forall fr v, is_ok (json_value fr v) = json_serializable v.
Proof. intros fr [] ; try destruct b; reflexivity. Qed.

Lemma json_value_err : forall fr v e, json_value fr v = Err e -> exists m, e = TypeError m.
Proof.
  intros fr [] e H; try destruct b; cbn in H; try discriminate;
    injection H as <-; eexists; reflexivity.
Qed.

Lemma json_items_ok : forall fr d b,
  is_ok (json_items fr b d) = forallb (fun kv => json_serializable (snd kv)) d.
Proof.
  intros fr d. induction d as [|[k v] d IH]; intros b; [reflexivity|].
  simpl. rewrite <- (json_value_ok fr v), <- (IH false).
  destruct (json_value fr v); simpl; [|reflexivity].
  destruct (json_items fr false d); reflexivity.
Qed.

Lemma json_items_err : forall fr d b e, json_items fr b d = Err e -> exists m, e = TypeError m.
Proof.
  intros fr d. induction d as [|[k v] d IH]; intros b e H; [discriminate|].
  cbn [json_items] in H. unfold bind in H.
  destruct (json_value fr v) as [sv|e0] eqn:Hv.
  - destruct (json_items fr false d) as [rest|e1] eqn:Hi; [discriminate|].
    injection H as <-. exact (IH false e1 Hi).
  - injection H as <-. exact (json_value_err fr v e0 Hv).
Qed.

Lemma generate_data_hash_ok : forall fr sh d,
  is_ok (generate_data_hash fr sh d) = forallb (fun kv => json_serializable (snd kv)) d.
Proof.
  intros fr sh d. unfold generate_data_hash, json_dumps_sorted.
  transitivity (is_ok (json_items fr true (sort_items d))).
  - destruct (json_items fr true (sort_items d)); reflexivity.
  - rewrite json_items_ok.
    apply eq_true_iff_eq. rewrite !forallb_forall. split; intros Hall x Hx; apply Hall.
    + apply Permutation_in with (l := d); [apply sort_items_Permutation|exact Hx].
    + apply Permutation_in with (l := sort_items d);
        [symmetry; apply sort_items_Permutation|exact Hx].
Qed.

Lemma generate_data_hash_err : forall fr sh d e,
  generate_data_hash fr sh d = Err e -> exists m, e = TypeError m.
Proof.
  intros fr sh d e H. unfold generate_data_hash, json_dumps_sorted, bind in H.
  destruct (json_items fr true (sort_items d)) as [body|e0] eqn:Hi; [discriminate|].
  injection H as <-. exact (json_items_err fr _ true e0 Hi).
Qed.

(** [generate_data_hash] returns a digest exactly when no value of the row
    dict is a numpy scalar ([int64], [uint64] or [bool_]); when some value
    is one, [json.dumps] raises [TypeError]. *)
Theorem generate_data_hash_fails_on_numpy :
  forall fr sh d,
    ((exists h, generate_data_hash fr sh d = Ok h) <->
     (forall k v, In (k, v) d -> json_serializable v = true)) /\
    ((exists k v, In (k, v) d /\ json_serializable v = false) ->
     exists m, generate_data_hash fr sh d = Err (TypeError m)).
Proof.
  intros fr sh d. pose proof (generate_data_hash_ok fr sh d) as H.
  assert (Hiff : (exists h, generate_data_hash fr sh d = Ok h) <->
                 (forall k v, In (k, v) d -> json_serializable v = true)).
  { split.
    - intros [h Hh] k v Hin. rewrite Hh in H. symmetry in H.
      rewrite forallb_forall in H. exact (H (k, v) Hin).
    - intros Hall. destruct (generate_data_hash fr sh d) as [h|e]; [exists h; reflexivity|].
      simpl in H. symmetry in H. rewrite <- not_true_iff_false, forallb_forall in H.
      exfalso. apply H. intros [k v] Hin. exact (Hall k v Hin). }
  split; [exact Hiff|].
  intros (k & v & Hin & Hv).
  destruct (generate_data_hash fr sh d) as [h|e] eqn:Hg.
  - exfalso. rewrite (proj1 Hiff (ex_intro _ h eq_refl) k v Hin) in Hv. discriminate.
  - destruct (generate_data_hash_err fr sh d e Hg) as [m ->]. exists m. reflexivity.
Qed.

Lemma generate_data_hash_fails_on_numpy_witness :
  exists m, generate_data_hash demo_float_repr demo_digest
              [("speed", PNpUInt 10); ("rpm", PInt 1000)] = Err (TypeError m).
Proof.
  apply (proj2 (generate_data_hash_fails_on_numpy demo_float_repr demo_digest
                  [("speed", PNpUInt 10); ("rpm", PInt 1000)])).
  exists "speed", (PNpUInt 10). split; [left; reflexivity|reflexivity].
Defined.

(** ** Files made of integers only *)

Lemma all_some_facts : forall (P : string -> bool) cells,
  (forall x, In x cells -> exists s, x = Some s /\ P s = true) ->
  has_none cells = false /\ forallb P (somes cells) = true /\
  length (somes cells) = length cells.
Proof.
  intros P cells. induction cells as [|x cells IH]; intros H; [repeat split|].
  destruct (H x (or_introl eq_refl)) as (s & -> & Hs).
  destruct IH as (H1 & H2 & H3); [intros y Hy; apply H; right; exact Hy|].
  unfold has_none in *. simpl. rewrite H1, Hs, H2, H3. repeat split.
Qed.

Lemma fold_row_step_all_fail : forall fr sh pd types df idxs recs dup err,
  (forall i, In i idxs -> is_ok (process_row fr sh pd types df [] i) = false) ->
  fold_left (row_step fr sh pd types df []) idxs (Ok (recs, dup, err))
    = Ok (recs, dup, err + length idxs).
Proof.
  intros fr sh pd types df idxs. induction idxs as [|i idxs IH]; intros recs dup err H.
  - simpl. rewrite Nat.add_0_r. reflexivity.
  - cbn [fold_left]. unfold row_step at 2. cbn [bind].
    specialize (H i (or_introl eq_refl)) as Hi.
    destruct (process_row fr sh pd types df [] i); [discriminate|].
    cbn [label_add1 row_label_at bind].
    rewrite IH by (intros j Hj; apply H; right; exact Hj). simpl. f_equal. f_equal. lia.
Qed.

Section IntegerFile.

Variable t : table.

(** Every row has one cell per column, and every cell is an integer
    within the int64 range. *)
Hypothesis Hcells : forall r, In r (tb_rows t) ->
  length r = length (tb_header t) /\
  forall cell, In cell r ->
    exists s, cell = Some s /\ is_int_text s = true /\ in_int64 (int_value s) = true.
Hypothesis Hrows : tb_rows t <> [].

Lemma int_column_cells : forall i, i < length (tb_header t) ->
  forall x, In x (map (fun r => nth i r None) (tb_rows t)) ->
  exists s, x = Some s /\ is_int_text s && in_int64 (int_value s) = true.
Proof.
  intros i Hi x Hx. apply in_map_iff in Hx as (r & <- & Hr).
  destruct (Hcells r Hr) as [Hlen Hall].
  destruct (Hall (nth i r None)) as (s & Hs & H1 & H2); [apply nth_In; lia|].
  exists s. rewrite H1, H2. split; [exact Hs|reflexivity].
Qed.

Lemma int_frame_column : forall c, In c (frame_of_table t) ->
  col_dtype c = DInt64 /\ dropna (col_elems c) <> [] /\
  forall idx, idx < length (tb_rows t) -> exists z, nth idx (col_elems c) ENaN = EInt z.
Proof.
  intros c Hc. destruct (frame_in t c Hc) as (i & name & -> & Hi).
  set (cells := map (fun r => nth i r None) (tb_rows t)).
  destruct (all_some_facts _ cells (int_column_cells i Hi)) as (Hn & Hf & Hl).
  destruct (forallb_andb _ _ _ Hf) as [Hint Hr].
  assert (Hd : read_csv_dtype cells = DInt64).
  { unfold read_csv_dtype. destruct (somes cells) as [|s l] eqn:Hs.
    - exfalso. unfold cells in Hl. rewrite length_map in Hl. simpl in Hl.
      destruct (tb_rows t); [contradiction|discriminate].
    - rewrite Hint, Hr, Hn. reflexivity. }
  unfold read_csv_column. cbv zeta. rewrite Hd. simpl.
  split; [reflexivity|]. split.
  - rewrite dropna_read_csv_elems. destruct (somes cells) eqn:Hs; [|discriminate].
    unfold cells in Hl. rewrite length_map in Hl. simpl in Hl.
    destruct (tb_rows t); [contradiction|discriminate].
  - intros idx Hidx.
    change ENaN with (read_csv_elem DInt64 (forallb is_bool_literal (somes cells)) None).
    rewrite map_nth.
    assert (Hin : In (nth idx cells None) cells).
    { apply nth_In. unfold cells. rewrite length_map. exact Hidx. }
    destruct (int_column_cells i Hi _ Hin) as (s & -> & _).
    eexists. reflexivity.
Qed.

Lemma int_frame_row_dtype : row_dtype (frame_of_table t) = DInt64.
Proof.
  unfold row_dtype. replace (forallb _ (frame_of_table t)) with true; [reflexivity|].
  symmetry. apply forallb_forall. intros c Hc.
  destruct (int_frame_column c Hc) as (-> & _). reflexivity.
Qed.

Lemma int_frame_rows_fail : forall fr sh pd idx, idx < length (tb_rows t) ->
  tb_header t <> [] ->
  is_ok (process_row fr sh pd (infer_column_types fr pd (frame_of_table t)) (frame_of_table t)
           [] idx)
    = false.
Proof.
  intros fr sh pd idx Hidx Hh.
  unfold process_row. rewrite int_frame_row_dtype.
  destruct (frame_of_table t) as [|c cs] eqn:Hf.
  { exfalso. apply Hh. rewrite <- (frame_names t), Hf. reflexivity. }
  assert (Hc : In c (frame_of_table t)) by (rewrite Hf; left; reflexivity).
  destruct (int_frame_column c Hc) as (_ & _ & Helem).
  destruct (Helem idx Hidx) as [z Hz].
  assert (Hty : infer_column_type fr pd c = INTEGER).
  { destruct (int_frame_column c Hc) as (Hd & Hne & _).
    unfold infer_column_type. destruct (dropna (col_elems c)); [contradiction|].
    rewrite Hd. reflexivity. }
  cbn [build_row].
  unfold row_cell at 1. rewrite Hz. cbn [row_value].
  change (infer_column_types fr pd (c :: cs))
    with ((col_name c, infer_column_type fr pd c) :: infer_column_types fr pd cs).
  cbn [lookup_type]. rewrite String.eqb_refl, Hty. cbn [bind].
  destruct (build_row fr pd ((col_name c, INTEGER) :: infer_column_types fr pd cs) DInt64 cs idx)
    as [rest|e]; [|reflexivity].
  cbn [bind]. destruct (generate_data_hash fr sh ((col_name c, PNpInt z) :: rest)) eqn:Hg;
    [|reflexivity].
  exfalso. pose proof (generate_data_hash_ok fr sh ((col_name c, PNpInt z) :: rest)) as Ho.
  rewrite Hg in Ho. discriminate.
Qed.

End IntegerFile.

(** A file read with the default index whose cells are all integers
    within the int64 range, with no missing cell, is read into int64
    columns; [iterrows] then yields numpy [int64] values that
    [json.dumps] rejects, so every row is counted as an error: the run
    commits with no stored record, [error_rows = total_rows] and a
    quality score of 0. *)
Theorem process_csv_integer_file_stores_nothing :
  forall fr sh pd src s0 t,
    src_table src = Ok t -> tb_index t = [] -> tb_header t <> [] -> tb_rows t <> [] ->
    (forall r, In r (tb_rows t) ->
       length r = length (tb_header t) /\
       forall cell, In cell r ->
         exists s, cell = Some s /\ is_int_text s = true /\ in_int64 (int_value s) = true) ->
    exists sm s1,
      process_csv fr sh pd src s0 = (Ok sm, s1) /\
      sm_processed_rows sm = 0 /\
      sm_error_rows sm = sm_total_rows sm /\
      db_records (st_db s1) = [] /\
      (sm_quality_score sm == 0)%Q.
Proof.
  intros fr sh pd src s0 t Hsrc Hix Hh Hr Hcells.
  assert (He : df_empty t = false).
  { unfold df_empty. destruct (tb_header t); [contradiction|].
    destruct (tb_rows t); [contradiction|reflexivity]. }
  assert (Hm : materialize_rows fr sh pd (infer_column_types fr pd (frame_of_table t))
                 (frame_of_table t) (index_of_table t) (df_len t) = Ok ([], 0, df_len t)).
  { rewrite (index_of_table_default t Hix).
    unfold materialize_rows. rewrite fold_row_step_all_fail.
    - rewrite length_seq. reflexivity.
    - intros i Hi. apply in_seq in Hi.
      apply (int_frame_rows_fail t Hcells Hr); [unfold df_len in Hi; lia|exact Hh]. }
  rewrite (process_csv_ok fr sh pd src s0 t [] 0 (df_len t) [] Hsrc He Hm eq_refl eq_refl).
  eexists _, _. split; [reflexivity|]. cbn.
  split; [reflexivity|]. split; [reflexivity|]. split; [reflexivity|].
  rewrite Z.sub_diag. reflexivity.
Qed.

(** [speed,rpm / 10,1000 / 20,1200] *)
Lemma process_csv_integer_file_stores_nothing_witness :
  exists sm s1,
    process_csv demo_float_repr demo_digest demo_pandas
      (mkSource "ascii" "," (Ok (mkTable ["speed"; "rpm"] []
                                   [[Some "10"; Some "1000"]; [Some "20"; Some "1200"]])))
      initial_state = (Ok sm, s1) /\
    sm_processed_rows sm = 0 /\
    sm_error_rows sm = sm_total_rows sm /\
    db_records (st_db s1) = [] /\
    (sm_quality_score sm == 0)%Q.
Proof.
  apply (process_csv_integer_file_stores_nothing demo_float_repr demo_digest demo_pandas _
           initial_state
           (mkTable ["speed"; "rpm"] [] [[Some "10"; Some "1000"]; [Some "20"; Some "1200"]]));
    [reflexivity|reflexivity|discriminate|discriminate|].
  intros r Hr. simpl in Hr.
  destruct Hr as [<-|[<-|[]]]; (split; [reflexivity|]);
    intros cell Hc; simpl in Hc;
    destruct Hc as [<-|[<-|[]]]; eexists; (split; [reflexivity|split; vm_compute; reflexivity]).
Defined.

(** ** Columns of boolean literals *)

Lemma bool_literal_not_number : forall s,
  is_bool_literal s = true -> is_int_text s = false /\ is_number_text s = false.
Proof.
  intros s. unfold is_bool_literal, bool_literal.
  repeat match goal with
         | |- context [String.eqb s ?lit] => destruct (String.eqb_spec s lit) as [->|?]
         end; simpl; try discriminate; intros _; split; reflexivity.
Qed.

Lemma bool_literal_some : forall s,
  is_bool_literal s = true -> exists b, bool_literal s = Some b.
Proof.
  intros s. unfold is_bool_literal. destruct (bool_literal s) as [b|]; [|discriminate].
  intros _. exists b. reflexivity.
Qed.

(** A column whose present cells are all [True]/[False] literals is read
    as booleans, which [pd.to_numeric] accepts and whose [str] has no
    dot: [infer_column_types] types it INTEGER, not BOOLEAN. *)
Theorem infer_column_type_bool_literals_integer :
  forall fr pd name cells,
    somes cells <> [] ->
    forallb is_bool_literal (somes cells) = true ->
    infer_column_type fr pd (read_csv_column name cells) = INTEGER.
Proof.
  intros fr pd name cells Hne Hb.
  unfold read_csv_column. cbv zeta.
  assert (Hd : read_csv_dtype cells = if has_none cells then DObject else DBool).
  { unfold read_csv_dtype. destruct (somes cells) as [|s l] eqn:Hs; [contradiction|].
    rewrite Hb.
    pose proof (proj1 (forallb_forall _ _) Hb s (or_introl eq_refl)) as Hs0.
    destruct (bool_literal_not_number s Hs0) as [Hi Hn]. simpl. rewrite Hi, Hn. reflexivity. }
  assert (Hel : forall d, d = DObject \/ d = DBool ->
            forall e, In e (dropna (map (read_csv_elem d true) cells)) -> exists b, e = EBool b).
  { intros d Hdd e He. rewrite dropna_read_csv_elems in He.
    apply in_map_iff in He as (s & <- & Hin).
    pose proof (proj1 (forallb_forall _ _) Hb s Hin) as Hs.
    destruct (bool_literal_some s Hs) as [b Hsb].
    exists b. destruct Hdd as [-> | ->]; simpl; rewrite Hsb; reflexivity. }
  rewrite Hb, Hd. unfold infer_column_type. cbn [col_elems col_dtype].
  set (d := if has_none cells then DObject else DBool).
  assert (Hdd : d = DObject \/ d = DBool) by (unfold d; destruct (has_none cells); auto).
  specialize (Hel d Hdd).
  destruct (dropna (map (read_csv_elem d true) cells)) as [|e0 es] eqn:Hdr.
  - rewrite dropna_read_csv_elems in Hdr.
    destruct (somes cells); [contradiction|discriminate].
  - assert (Hnum : forallb (to_numeric_ok pd) (e0 :: es) = true).
    { apply forallb_forall. intros e He. destruct (Hel e He) as [b ->]. reflexivity. }
    assert (Hdot : existsb (fun v => str_contains_dot (elem_str fr v)) (e0 :: es) = false).
    { apply not_true_iff_false. intros Hx. apply existsb_exists in Hx as (e & He & Hx).
      destruct (Hel e He) as [b ->]. destruct b; discriminate. }
    destruct Hdd as [-> | ->]; rewrite Hnum, Hdot; reflexivity.
Qed.

Lemma infer_column_type_bool_literals_integer_witness :
  infer_column_type demo_float_repr demo_pandas
    (read_csv_column "flag" [Some "True"; None; Some "false"]) = INTEGER.
Proof.
  apply infer_column_type_bool_literals_integer; [discriminate|reflexivity].
Defined.

(** ** [calculate_statistics] *)

Lemma count_unique_bounds : forall l,
  count_unique l <= length l /\ (l <> [] -> 1 <= count_unique l).
Proof.
  induction l as [|e l IH]; simpl; [split; [lia|intros H; contradiction]|].
  destruct IH as [H1 H2]. split.
  - destruct (existsb (elem_eqb e) l); lia.
  - intros _. destruct (existsb (elem_eqb e) l) eqn:He; [|lia].
    destruct l; [discriminate|]. apply H2. discriminate.
Qed.

(** [calculate_statistics] counts as [null_count] the missing cells of
    the column, and as [unique_count] a number between 1 and the number
    of present cells (0 when every cell is missing). *)
Theorem calculate_statistics_counts :
  forall c ty,
    let st := calculate_statistics c ty in
    stat_null st = length (filter (fun e => match e with ENaN => true | _ => false end)
                                  (col_elems c)) /\
    stat_null st + length (dropna (col_elems c)) = length (col_elems c) /\
    stat_unique st <= length (dropna (col_elems c)) /\
    (dropna (col_elems c) = [] <-> stat_unique st = 0).
Proof.
  intros c ty st. unfold st, calculate_statistics.
  destruct (match ty with
            | INTEGER | FLOAT => somes (map coerce_numeric (dropna (col_elems c)))
            | _ => []
            end) as [|x l]; cbn [stat_null stat_unique];
  (assert (Hsplit : forall l0 : list elem,
             length (filter (fun e => match e with ENaN => true | _ => false end) l0)
             + length (dropna l0) = length l0)
     by (induction l0 as [|e l0 IH]; [reflexivity|];
         unfold dropna in *; destruct e; simpl; lia);
   pose proof (Hsplit (col_elems c)) as Hs;
   destruct (count_unique_bounds (dropna (col_elems c))) as [Hu1 Hu2];
   split; [lia|]; split; [lia|]; split; [exact Hu1|];
   split; [intros H; rewrite H; reflexivity|];
   intros H; destruct (dropna (col_elems c)); [reflexivity|];
   exfalso; specialize (Hu2 ltac:(discriminate)); lia).
Qed.

(** ** Exceptions out of [validate_record] *)

Lemma validate_range_err :
  forall fos value config e,
    validate_range fos value config = Err e ->
    exists z m, (value = PInt z \/ value = PNpInt z \/ value = PNpUInt z) /\
                int_to_float z = Err (OverflowError m) /\ e = OverflowError m.
Proof.
  intros fos value config e. unfold validate_range.
  destruct (to_float fos value) as [x|e0] eqn:Hv; cbn [bind].
  - unfold compare_bound.
    destruct (config_get "min" config);
      try (destruct (bound_value _)); cbn [bind catch_value_type_errors];
      try (destruct (pyfloat_lt _ _));
      destruct (config_get "max" config);
      try (destruct (bound_value _)); cbn [bind catch_value_type_errors];
      try (destruct (pyfloat_gt _ _)); cbn [catch_value_type_errors];
      discriminate.
  - intros H.
    destruct value; cbn [to_float] in Hv.
    + injection Hv as <-. discriminate.
    + discriminate.
    + unfold int_to_float in Hv |- *. exists z.
      destruct (_ <=? _)%Z; [injection Hv as <-|discriminate].
      injection H as <-. exists "int too large to convert to float". auto.
    + discriminate.
    + destruct (fos s); [discriminate|]. injection Hv as <-. discriminate.
    + unfold int_to_float in Hv |- *. exists z.
      destruct (_ <=? _)%Z; [injection Hv as <-|discriminate].
      injection H as <-. exists "int too large to convert to float". auto.
    + unfold int_to_float in Hv |- *. exists z.
      destruct (_ <=? _)%Z; [injection Hv as <-|discriminate].
      injection H as <-. exists "int too large to convert to float". auto.
    + discriminate.
Qed.

Lemma getattr_validator_kinds :
  forall fr fos compiled rc rme k m,
    getattr_validator fr fos compiled rc rme ("validate_" ++ str_lower (rule_kind_name k)) = Some m ->
    (k = RANGE /\ m = validate_range fos) \/ (forall v c, exists b, m v c = Ok b).
Proof.
  intros fr fos compiled rc rme k m H.
  destruct k; simpl in H; try discriminate; injection H as <-.
  - left. auto.
  - right. intros v c. unfold validate_pattern.
    destruct (if truthy _ then _ else _); eexists; reflexivity.
  - right. intros v c. eexists. reflexivity.
Qed.

Lemma check_rules_err :
  forall fr fos compiled rc rme record_data rules errs e,
    check_rules fr fos compiled rc rme record_data rules errs = Err e ->
    exists rule, In rule rules /\ rule_type rule = RANGE /\
      validate_range fos (config_get (rule_column_name rule) record_data) (rule_config rule) = Err e.
Proof.
  intros fr fos compiled rc rme record_data rules.
  induction rules as [|rule rest IH]; intros errs e H; [discriminate|].
  rewrite check_rules_cons in H.
  destruct (getattr_validator fr fos compiled rc rme
              ("validate_" ++ str_lower (rule_kind_name (rule_type rule)))) as [m|] eqn:Hg.
  - destruct (m (config_get (rule_column_name rule) record_data) (rule_config rule)) as [b|e0] eqn:Hm;
      cbn [bind] in H.
    + destruct (IH _ _ H) as (r & Hin & Hr). exists r. split; [right; exact Hin|exact Hr].
    + injection H as <-. exists rule. split; [left; reflexivity|].
      destruct (getattr_validator_kinds _ _ _ _ _ _ _ Hg) as [[Hk ->]|Hok].
      * split; assumption.
      * destruct (Hok (config_get (rule_column_name rule) record_data) (rule_config rule)) as [b Hb].
        congruence.
  - destruct (IH _ _ H) as (r & Hin & Hr). exists r. split; [right; exact Hin|exact Hr].
Qed.

(** For a dict [rule_config] and a record whose values are scalars
    ([None], [bool], [int], [float], [str] or numpy scalars), the only
    exception [validate_record] lets out is the [OverflowError] of
    [float()] on an integer too large for a float, read from the record
    by an active RANGE rule: a PATTERN or NOT_NULL rule never raises on
    such values, and every [ValueError] or [TypeError] of a RANGE rule is
    turned into a failed rule. *)
Theorem validate_record_raises_only_overflow :
  forall fr fos compiled rc rme record_data rules e,
    validate_record fr fos compiled rc rme record_data rules = Err e ->
    exists rule z m,
      In rule rules /\ rule_is_active rule = true /\ rule_type rule = RANGE /\
      (config_get (rule_column_name rule) record_data = PInt z \/
       config_get (rule_column_name rule) record_data = PNpInt z \/
       config_get (rule_column_name rule) record_data = PNpUInt z) /\
      int_to_float z = Err (OverflowError m) /\ e = OverflowError m.
Proof.
  intros fr fos compiled rc rme record_data rules e H. unfold validate_record in H.
  destruct (check_rules fr fos compiled rc rme record_data (filter rule_is_active rules) [])
    as [errs|e0] eqn:Hc; cbn [bind] in H; [discriminate|].
  injection H as <-.
  destruct (check_rules_err _ _ _ _ _ _ _ _ _ Hc) as (rule & Hin & Hk & Hr).
  apply filter_In in Hin as [Hin Ha].
  destruct (validate_range_err _ _ _ _ Hr) as (z & m & Hv & Hz & ->).
  exists rule, z, m. repeat split; assumption.
Qed.

Lemma validate_record_raises_only_overflow_witness :
  exists rule z m,
    In rule [mkRule "x" NOT_NULL [] true; mkRule "x" RANGE [] true] /\
    rule_is_active rule = true /\ rule_type rule = RANGE /\
    (config_get (rule_column_name rule) [("x", PInt (10 ^ 400))] = PInt z \/
     config_get (rule_column_name rule) [("x", PInt (10 ^ 400))] = PNpInt z \/
     config_get (rule_column_name rule) [("x", PInt (10 ^ 400))] = PNpUInt z) /\
    int_to_float z = Err (OverflowError m) /\
    OverflowError "int too large to convert to float" = OverflowError m.
Proof.
  apply (validate_record_raises_only_overflow demo_float_repr no_float string
           literal_compile literal_match_end [("x", PInt (10 ^ 400))]
           [mkRule "x" NOT_NULL [] true; mkRule "x" RANGE [] true]).
  vm_compute. reflexivity.
Defined.
